(** * The question-answering service of rag_nebius_postgresql

    A shallow embedding of the two FastAPI applications of the repository,
    [src/main.py] (one model answers) and [src/main_ensemble.py] (two models
    draft, a third one fuses), and the properties of their handlers
    [upload_file], [get_similar_chunks] and [ask_question].

    The handlers are written in a small state-and-exception monad over a
    [World]: the process environment, the two tables, the file system, the
    queue of background tasks and a trace of the calls made to the embedding
    API, the chat-completion API and the database.  The trace is ghost
    state: the handlers never read it, it is there so that statements about
    which calls were made, with which arguments, can be written down. *)

From stdpp Require Import gmap strings list sorting pretty.
From Stdlib Require Import Ascii QArith Qabs Qreduction.

Local Open Scope Z_scope.

(** ** Python strings *)

(** [sep.join(items)] *)
Fixpoint join (sep : string) (items : list string) : string :=
  match items with
  | [] => ""
  | [x] => x
  | x :: rest => x +:+ sep +:+ join sep rest
  end.

(** [s.split(sep)] for a separator of one character: the pieces between the
    occurrences of [sep]; never the empty list. *)
Fixpoint split (sep : ascii) (s : string) : list string :=
  match s with
  | EmptyString => [""]
  | String c s' =>
      if Ascii.eqb c sep then "" :: split sep s'
      else match split sep s' with
           | [] => [String c ""]
           | piece :: pieces => String c piece :: pieces
           end
  end.

(** [x in s] for two strings. *)
Definition contains (s x : string) : Prop :=
  ∃ before after : string, s = before +:+ x +:+ after.

Fixpoint has_char (c : ascii) (s : string) : bool :=
  match s with
  | EmptyString => false
  | String c' s' => Ascii.eqb c' c || has_char c s'
  end.

(** ** Exceptions and outcomes *)

(** The exceptions the handlers see: [HTTPException], which they raise
    themselves, and any other [Exception] raised by a collaborator (the API
    client, the database driver, the parser, the operating system), kept by
    its message. *)
Inductive exn : Type :=
  | HTTPException (status_code : Z) (detail : string)
  | Exception (message : string).

Inductive outcome (A : Type) : Type :=
  | Return (a : A)
  | Raise (e : exn).
Arguments Return {A} a.
Arguments Raise {A} e.

(** ** Tables *)

(** [database.FileChunk]: the columns the handlers read. *)
Record FileChunk (vector : Type) : Type := mkFileChunk {
  chunk_id : Z;
  file_id : Z;
  chunk_text : string;
  embedding_vector : vector
}.
Arguments mkFileChunk {vector}.
Arguments chunk_id {vector}.
Arguments file_id {vector}.
Arguments chunk_text {vector}.
Arguments embedding_vector {vector}.

(** [database.File]. *)
Record File : Type := mkFile {
  file_file_id : Z;
  file_name : string;
  file_content : string
}.

(** ** Requests and messages *)

Record AskModel : Type := mkAskModel {
  document_id : Z;
  question : string
}.

Record UploadFile : Type := mkUploadFile {
  filename : string;
  content : list Byte.byte
}.

(** One entry of the [messages] list of a chat completion. *)
Record Message : Type := mkMessage {
  role : string;
  message_content : string
}.

(** The body of [find_similar_chunks]: the class [Question], whose one
    field [question] is [question_text] here, [question] being taken by
    [AskModel]. *)
Record Question : Type := mkQuestion {
  question_text : string
}.

(** A value in the dictionaries the listing handlers return: a key of a row
    or a text. *)
Inductive json_value : Type :=
  | JInt (n : Z)
  | JStr (s : string).

(** ** The trace of calls to the collaborators *)

Inductive Call (vector : Type) : Type :=
  | EmbeddingsCreate (model input : string) (result : outcome vector)
  | ChatCompletionsCreate (model : string) (messages : list Message)
      (result : outcome string)
  | Select (of_file : Z) (query : vector) (limit : Z)
      (result : outcome (list (FileChunk vector))).
Arguments EmbeddingsCreate {vector}.
Arguments ChatCompletionsCreate {vector}.
Arguments Select {vector}.

(** ** The collaborators

    What the handlers import and do not define.  The two remote APIs may
    answer differently from one call to the next: their answer is a function
    of the calls made so far as well as of the arguments.

    - [l2_distance]: pgvector's distance between a stored vector and the
      query vector, a finite float, hence a rational number;
    - [tie_order]: for the rows of a table and a query (document, query
      vector, limit), whether the executor gives the first of two rows of
      equal distance before the second; the query orders by the distance
      alone and PostgreSQL promises nothing about rows of equal distance,
      so the order may change with the table, the vector or the limit;
    - [limit_error]: the exception of the database driver for a LIMIT that
      PostgreSQL refuses;
    - [embeddings_create]: [client.embeddings.create(...).data[0].embedding];
    - [chat_completions_create]:
      [client.chat.completions.create(...).choices[0].message.content];
    - [str_HTTPException]: [str(e)] for an [HTTPException];
    - [open_wb]: whether [open(path, "wb+")] raises;
    - [parse]: [FileParser(filepath).parse()], from the path and the bytes
      written there;
    - [next_file_id]: the key the database gives to a new [File] row. *)
Class Collaborators (vector : Type) : Type := {
  l2_distance : vector → vector → Q;
  tie_order :
    list (FileChunk vector) → Z → vector → Z →
    FileChunk vector → FileChunk vector → bool;
  limit_error : Z → exn;
  embeddings_create : list (Call vector) → string → string → outcome vector;
  chat_completions_create :
    list (Call vector) → string → list Message → outcome string;
  str_HTTPException : Z → string → string;
  open_wb : string → option exn;
  parse : string → list Byte.byte → outcome string;
  next_file_id : list File → Z
}.

(** ** The world *)

Record World (vector : Type) : Type := mkWorld {
  environ : gmap string string;
  file_chunks : list (FileChunk vector);
  files : list File;
  directories : gset string;
  file_system : gmap string (list Byte.byte);
  background_tasks : list (Z * string);
  calls : list (Call vector)
}.
Arguments mkWorld {vector}.
Arguments environ {vector}.
Arguments file_chunks {vector}.
Arguments files {vector}.
Arguments directories {vector}.
Arguments file_system {vector}.
Arguments background_tasks {vector}.
Arguments calls {vector}.

Section Monad.
Context {vector : Type}.

(** A handler step: from a world to an outcome and the world it leaves;
    what was done before an exception stays done. *)
Definition M (A : Type) : Type := World vector → outcome A * World vector.

Definition ret {A} (a : A) : M A := λ w, (Return a, w).
Definition raise {A} (e : exn) : M A := λ w, (Raise e, w).
Definition bind {A B} (m : M A) (k : A → M B) : M B :=
  λ w, match m w with
       | (Return a, w') => k a w'
       | (Raise e, w') => (Raise e, w')
       end.
(** [try: body except Exception as e: handler] *)
Definition try_except {A} (body : M A) (handler : exn → M A) : M A :=
  λ w, match body w with
       | (Return a, w') => (Return a, w')
       | (Raise e, w') => handler e w'
       end.

Definition record_call (c : Call vector) (w : World vector) : World vector :=
  mkWorld (environ w) (file_chunks w) (files w) (directories w)
    (file_system w) (background_tasks w) (calls w ++ [c]).
End Monad.
Arguments M : clear implicits.

Notation "'let*' x ':=' m 'in' k" := (bind m (λ x, k))
  (at level 10, x name, m at level 100, k at level 200, only parsing).

(** ** What both applications share *)

Section Shared.
Context {vector : Type} `{!Collaborators vector}.

(** [str(e)] *)
Definition str (e : exn) : string :=
  match e with
  | HTTPException status_code detail => str_HTTPException status_code detail
  | Exception message => message
  end.

(** [client.embeddings.create(model=..., input=...)], kept in the trace. *)
Definition client_embeddings_create (model input : string) : M vector vector :=
  λ w, let r := embeddings_create (calls w) model input in
       (r, record_call (EmbeddingsCreate model input r) w).

(** [client.chat.completions.create(model=..., messages=...)], kept in the
    trace. *)
Definition client_chat_completions_create
    (model : string) (messages : list Message) : M vector string :=
  λ w, let r := chat_completions_create (calls w) model messages in
       (r, record_call (ChatCompletionsCreate model messages r) w).

(** [ORDER BY key]: the rows sorted on the one key of the query.  A row
    goes before the first row of greater key, and before a row of equal key
    when the executor's [tie] says so: the result is in the order of the
    key whatever [tie] is, and [tie] alone decides among rows of equal
    key. *)
Fixpoint insert_by (key : FileChunk vector → Q)
    (tie : FileChunk vector → FileChunk vector → bool)
    (x : FileChunk vector) (sorted : list (FileChunk vector))
    : list (FileChunk vector) :=
  match sorted with
  | [] => [x]
  | y :: rest =>
      if Qle_bool (key x) (key y)
         && (negb (Qle_bool (key y) (key x)) || tie x y)
      then x :: y :: rest
      else y :: insert_by key tie x rest
  end.

Fixpoint order_by (key : FileChunk vector → Q)
    (tie : FileChunk vector → FileChunk vector → bool)
    (rows : list (FileChunk vector)) : list (FileChunk vector) :=
  match rows with
  | [] => []
  | x :: rest => insert_by key tie x (order_by key tie rest)
  end.

(** The distance of a stored fragment to the query vector. *)
Definition distance_to (question_embedding : vector)
    (chunk : FileChunk vector) : Q :=
  l2_distance (embedding_vector chunk) question_embedding.

(** The fragments of one document, as the table gives them. *)
Definition chunks_of (of_file : Z) (rows : list (FileChunk vector))
    : list (FileChunk vector) :=
  filter (λ chunk, file_id chunk = of_file) rows.

(** [select(FileChunk).where(FileChunk.file_id == of_file)
      .order_by(FileChunk.embedding_vector.l2_distance(question_embedding))
      .limit(limit)] on the rows of the table.  LIMIT is a 64-bit signed
    integer that must not be negative: PostgreSQL refuses a limit below 0
    and a limit of 2^63 or more. *)
Definition similar_chunks_query (of_file : Z) (question_embedding : vector)
    (limit : Z) (rows : list (FileChunk vector))
    : outcome (list (FileChunk vector)) :=
  if (limit <? 0) || (2 ^ 63 <=? limit) then Raise (limit_error limit)
  else Return (take (Z.to_nat limit)
                 (order_by (distance_to question_embedding)
                    (tie_order rows of_file question_embedding limit)
                    (chunks_of of_file rows))).

(** [db.scalars(similar_chunks_query).all()], kept in the trace. *)
Definition db_scalars_all (of_file : Z) (question_embedding : vector)
    (limit : Z) : M vector (list (FileChunk vector)) :=
  λ w, let r := similar_chunks_query of_file question_embedding limit
                  (file_chunks w) in
       (r, record_call (Select of_file question_embedding limit r) w).

(** [os.environ.get(name)] *)
Definition os_environ_get (name : string) : M vector (option string) :=
  λ w, (Return (environ w !! name), w).

(** [os.path.join(folder, name)] for a folder that does not end in a
    slash: an absolute [name] replaces the folder. *)
Definition os_path_join (folder name : string) : string :=
  match name with
  | String "/" _ => name
  | _ => folder +:+ "/" +:+ name
  end.

(** [os.makedirs(folder, exist_ok=True)]: refuses a path that is a file. *)
Definition os_makedirs (folder : string) : M vector unit :=
  λ w, match file_system w !! folder with
       | Some _ => (Raise (Exception "File exists"), w)
       | None =>
           (Return (),
            mkWorld (environ w) (file_chunks w) (files w)
              ({[folder]} ∪ directories w) (file_system w)
              (background_tasks w) (calls w))
       end.

(** [with open(path, "wb+") as f: shutil.copyfileobj(BytesIO(data), f)] *)
Definition write_file (path : string) (data : list Byte.byte)
    : M vector unit :=
  λ w, match open_wb path with
       | Some e => (Raise e, w)
       | None =>
           (Return (),
            mkWorld (environ w) (file_chunks w) (files w) (directories w)
              (<[path := data]> (file_system w)) (background_tasks w)
              (calls w))
       end.

(** [FileParser(filepath=path).parse()] *)
Definition file_parser_parse (path : string) : M vector string :=
  λ w, match file_system w !! path with
       | Some data => (parse path data, w)
       | None => (Raise (Exception "No such file or directory"), w)
       end.

(** [db.add(File(file_name=..., file_content=...)); db.commit();
    db.refresh(new_file)], for a database that accepts the row: a commit
    or a refresh that raises is not modelled. *)
Definition db_add_file (name text : string) : M vector File :=
  λ w, let new_file := mkFile (next_file_id (files w)) name text in
       (Return new_file,
        mkWorld (environ w) (file_chunks w) (files w ++ [new_file])
          (directories w) (file_system w) (background_tasks w) (calls w)).

(** [background_tasks.add_task(TextProcessor(db, file_id).chunk_and_embed,
    text)] *)
Definition add_task (of_file : Z) (text : string) : M vector unit :=
  λ w, (Return (),
        mkWorld (environ w) (file_chunks w) (files w) (directories w)
          (file_system w) (background_tasks w ++ [(of_file, text)])
          (calls w)).

(** [items[-1]] *)
Definition index_last (items : list string) : M vector string :=
  match last items with
  | Some x => ret x
  | None => raise (Exception "list index out of range")
  end.

(** [bytes.replace(b'\x00', b'')] *)
Definition remove_null_bytes (data : list Byte.byte) : list Byte.byte :=
  List.filter (λ b, negb (Byte.eqb b Byte.x00)) data.

(** [upload_file], lines 41 to 88 of both [main.py] and
    [main_ensemble.py]. *)
Definition upload_file (file : UploadFile)
    : M vector (gmap string string) :=
  let allowed_extensions := ["txt"; "pdf"] in
  let* file_extension := index_last (split "." (filename file)) in
  if decide (file_extension ∈ allowed_extensions) then
    let folder := "sources" in
    try_except
      (let* _ := os_makedirs folder in
       let file_location := os_path_join folder (filename file) in
       let file_content := content file in
       let clean_file_content := remove_null_bytes file_content in
       let* _ := write_file file_location clean_file_content in
       let* file_text_content := file_parser_parse file_location in
       let* new_file := db_add_file (filename file) file_text_content in
       let* _ := add_task (file_file_id new_file) file_text_content in
       ret (<["info" := "File saved"]> {["filename" := filename file]}))
      (λ e, raise (HTTPException 500 "Error saving file"))
  else raise (HTTPException 400 "File type not allowed").

(** [root], lines 29 to 38 of both [main.py] and [main_ensemble.py]:
    [db.scalars(select(File)).all()], each row by its key and its name. *)
Definition root : M vector (list (gmap string json_value)) :=
  λ w, let files_list :=
         map (λ file, <["file_id" := JInt (file_file_id file)]>
                        {["file_name" := JStr (file_name file)]})
           (files w) in
       (Return files_list, w).

(** The system message of a drafting call. *)
Definition draft_system_message (context : string) : string :=
  "You are a helpful assistant. Here is the context to use to reply to the user question: "
  +:+ context.
End Shared.
Arguments similar_chunks_query : simpl never.
Arguments draft_system_message : simpl never.

(** ** [src/main.py]: one model answers *)

Module Main.
Section Handlers.
Context {vector : Type} `{!Collaborators vector}.

Definition upload_file : UploadFile → M vector (gmap string string) :=
  upload_file.

Definition get_similar_chunks (file_id : Z) (question : string)
    : M vector (list (FileChunk vector)) :=
  try_except
    (let* question_embedding :=
       client_embeddings_create "BAAI/bge-en-icl" question in
     db_scalars_all file_id question_embedding 10)
    (λ e, raise (HTTPException 500 (str e))).

Definition ask_question (request : AskModel)
    : M vector (gmap string string) :=
  let* api_key := os_environ_get "NEBIUS_API_KEY" in
  match api_key with
  | None => raise (HTTPException 500 "NEBIUS API key not set")
  | Some _ =>
      try_except
        (let* similar_chunks :=
           get_similar_chunks (document_id request) (question request) in
         let context := join " " (map chunk_text similar_chunks) in
         let system_message := draft_system_message context in
         let* response :=
           client_chat_completions_create "Qwen/Qwen2.5-Coder-32B-Instruct"
             [mkMessage "system" system_message;
              mkMessage "user" (question request)] in
         ret {["response" := response]})
        (λ e, raise (HTTPException 500 (str e)))
  end.

Definition root : M vector (list (gmap string json_value)) := root.

Definition find_similar_chunks (file_id : Z) (question : Question)
    : M vector (list (gmap string json_value)) :=
  try_except
    (let* similar_chunks :=
       get_similar_chunks file_id (question_text question) in
     let formated_response :=
       map (λ chunk, <["chunk_id" := JInt (chunk_id chunk)]>
                       {["chunk_text" := JStr (chunk_text chunk)]})
         similar_chunks in
     ret formated_response)
    (λ e, raise (HTTPException 500 (str e))).
End Handlers.
End Main.

(** ** [src/main_ensemble.py]: two models draft, a third one fuses *)

Module MainEnsemble.
Section Handlers.
Context {vector : Type} `{!Collaborators vector}.

Definition upload_file : UploadFile → M vector (gmap string string) :=
  upload_file.

(** The default of the parameter [limit] of [get_similar_chunks]. *)
Definition default_limit : Z := 5.

Definition get_similar_chunks (file_id : Z) (question : string) (limit : Z)
    : M vector (list (FileChunk vector)) :=
  try_except
    (let* question_embedding :=
       client_embeddings_create "BAAI/bge-en-icl" question in
     db_scalars_all file_id question_embedding limit)
    (λ e, raise (HTTPException 500 (str e))).

Definition final_system_message
    (context second_context primary_response secondary_response : string)
    : string :=
  "You are a helpful assistant. Based on this first context: "
  +:+ context +:+ " and this second context: " +:+ second_context +:+ ", "
  +:+ "here is the first possible response: " +:+ primary_response +:+ " "
  +:+ "and here is the second possible response: " +:+ secondary_response
  +:+ ". "
  +:+ "Based on that, craft a final response to the user question.".

Definition ask_question (request : AskModel)
    : M vector (gmap string string) :=
  let* api_key := os_environ_get "NEBIUS_API_KEY" in
  match api_key with
  | None => raise (HTTPException 500 "NEBIUS API key not set")
  | Some _ =>
      try_except
        (let* similar_chunks :=
           get_similar_chunks (document_id request) (question request)
             default_limit in
         let* second_similar_chunks :=
           get_similar_chunks (document_id request) (question request) 10 in
         let context := join " " (map chunk_text similar_chunks) in
         let second_context :=
           join " " (map chunk_text second_similar_chunks) in
         let system_message := draft_system_message context in
         let second_system_message :=
           draft_system_message second_context in
         let* primary_response :=
           client_chat_completions_create "Qwen/Qwen2.5-Coder-32B-Instruct"
             [mkMessage "system" system_message;
              mkMessage "user" (question request)] in
         let* secondary_response :=
           client_chat_completions_create
             "meta-llama/Meta-Llama-3.1-405B-Instruct"
             [mkMessage "system" second_system_message;
              mkMessage "user" (question request)] in
         let* final_response :=
           client_chat_completions_create
             "nvidia/Llama-3.1-Nemotron-70B-Instruct-HF"
             [mkMessage "system"
                (final_system_message context second_context
                   primary_response secondary_response);
              mkMessage "user" (question request)] in
         ret {["response" := final_response]})
        (λ e, raise (HTTPException 500 (str e)))
  end.

Definition root : M vector (list (gmap string json_value)) := root.

Definition find_similar_chunks (file_id : Z) (question : Question)
    : M vector (list (gmap string json_value)) :=
  try_except
    (let* similar_chunks :=
       get_similar_chunks file_id (question_text question) default_limit in
     let formated_response :=
       map (λ chunk, <["chunk_id" := JInt (chunk_id chunk)]>
                       {["chunk_text" := JStr (chunk_text chunk)]})
         similar_chunks in
     ret formated_response)
    (λ e, raise (HTTPException 500 (str e))).
End Handlers.
Arguments final_system_message : simpl never.
End MainEnsemble.

(** ** A fixture: vectors of one coordinate and stub collaborators *)

Module Fixture.
(** In one dimension the Euclidean distance is the absolute difference. *)
Definition distance (a b : Q) : Q := Qabs (a - b).

(** Every question embeds to the origin; every model answers; the model
    named by [failing] raises; rows of equal distance come in the order of
    the table; [str] of an [HTTPException] is its status, a colon and its
    detail. *)
Definition stub (failing : string) : Collaborators Q := {|
  l2_distance := distance;
  tie_order := λ _ _ _ _ _ _, true;
  limit_error := λ _, Exception "LIMIT out of range";
  embeddings_create := λ _ _ _, Return 0%Q;
  chat_completions_create := λ _ model _,
    if decide (model = failing) then Raise (Exception "model unavailable")
    else Return ("answer of " +:+ model);
  str_HTTPException := λ status_code detail,
    pretty status_code +:+ ": " +:+ detail;
  open_wb := λ _, None;
  parse := λ _ data, Return (String.string_of_list_byte data);
  next_file_id := λ rows, 1 + Z.of_nat (length rows)
|}.

(** The embedding API and the parser raise; every model answers. *)
Definition stub_down : Collaborators Q := {|
  l2_distance := distance;
  tie_order := λ _ _ _ _ _ _, true;
  limit_error := λ _, Exception "LIMIT out of range";
  embeddings_create := λ _ _ _, Raise (Exception "embedding unavailable");
  chat_completions_create := λ _ model _, Return ("answer of " +:+ model);
  str_HTTPException := λ status_code detail,
    pretty status_code +:+ ": " +:+ detail;
  open_wb := λ _, None;
  parse := λ _ _, Raise (Exception "unreadable");
  next_file_id := λ rows, 1 + Z.of_nat (length rows)
|}.

(** As [stub ""], but for an executor that, at limit 5, gives the row of
    key 1 after the rows of keys 2 to 5 when they are at the same distance:
    an order among ties that changes with the limit. *)
Definition stub_limit_5_ties : Collaborators Q := {|
  l2_distance := distance;
  tie_order := λ _ _ _ limit x y,
    negb ((limit =? 5) && (chunk_id x =? 1) && (chunk_id y <=? 5));
  limit_error := λ _, Exception "LIMIT out of range";
  embeddings_create := λ _ _ _, Return 0%Q;
  chat_completions_create := λ _ model _, Return ("answer of " +:+ model);
  str_HTTPException := λ status_code detail,
    pretty status_code +:+ ": " +:+ detail;
  open_wb := λ _, None;
  parse := λ _ data, Return (String.string_of_list_byte data);
  next_file_id := λ rows, 1 + Z.of_nat (length rows)
|}.

(** Eleven fragments of document 1, keys 1 to 11, all at the origin. *)
Definition equidistant : list (FileChunk Q) :=
  (λ i, mkFileChunk (Z.of_nat i) 1 "text" 0%Q) <$> seq 1 11.

Definition F1 := mkFileChunk 1 1 "cats are mammals" (1 # 10)%Q.
Definition F2 := mkFileChunk 2 1 "dogs are loyal" (3 # 10)%Q.
Definition F3 := mkFileChunk 3 1 "fish swim" (9 # 10)%Q.
(** A fragment as far from the origin as [F1], on the other side. *)
Definition F4 := mkFileChunk 4 1 "cats purr" (- 1 # 10)%Q.

Definition world (rows : list (FileChunk Q)) : World Q :=
  mkWorld {["NEBIUS_API_KEY" := "secret"]} rows [] ∅ ∅ [] [].

Definition world_without_key (rows : list (FileChunk Q)) : World Q :=
  mkWorld ∅ rows [] ∅ ∅ [] [].
End Fixture.

(** ** The calls one handler run makes *)

Definition calls_made {vector A} (handler : M vector A) (w : World vector)
    : list (Call vector) :=
  drop (length (calls w)) (calls (handler w).2).

(** ** What the retrieval is to return *)

Section Nearest.
Context {vector : Type} (key : FileChunk vector → Q).

Definition key_le (a b : FileChunk vector) : Prop := (key a <= key b)%Q.

(** A list holds the [k] nearest rows: it is sorted, as long as [k] or as
    the table allows, and no row left out is nearer than a row in it. *)
Definition nearest (k : nat) (rows result : list (FileChunk vector))
    : Prop :=
  length result = min k (length rows) ∧
  StronglySorted key_le result ∧
  ∃ rest, result ++ rest ≡ₚ rows ∧
          ∀ a b, a ∈ result → b ∈ rest → key_le a b.

(** No two rows are at the same distance. *)
Definition distinct_keys (rows : list (FileChunk vector)) : Prop :=
  NoDup ((λ row, Qred (key row)) <$> rows).
End Nearest.

(** ** What the trace shows *)

Section Trace.
Context {vector : Type}.

(** The queries run against the table: document, query vector, limit. *)
Definition selects (trace : list (Call vector)) : list (Z * vector * Z) :=
  omap (λ c, match c with
             | Select of_file query limit _ => Some (of_file, query, limit)
             | _ => None
             end) trace.

(** The texts sent to the embedding API. *)
Definition embedded (trace : list (Call vector)) : list string :=
  omap (λ c, match c with
             | EmbeddingsCreate _ input _ => Some input
             | _ => None
             end) trace.

(** The models asked for a completion. *)
Definition models_called (trace : list (Call vector)) : list string :=
  omap (λ c, match c with
             | ChatCompletionsCreate model _ _ => Some model
             | _ => None
             end) trace.
End Trace.

(** The stubs of a test are deterministic: what an API answers depends on
    the arguments of the call, not on the calls made before. *)
Definition deterministic_stubs {vector : Type} `{!Collaborators vector}
    : Prop :=
  (∀ history history' model input,
     embeddings_create history model input
     = embeddings_create history' model input) ∧
  (∀ history history' model messages,
     chat_completions_create history model messages
     = chat_completions_create history' model messages).

(** Two worlds that differ in the trace at most. *)
Definition same_state {vector : Type} (w w' : World vector) : Prop :=
  environ w' = environ w ∧ file_chunks w' = file_chunks w ∧
  files w' = files w ∧ directories w' = directories w ∧
  file_system w' = file_system w ∧
  background_tasks w' = background_tasks w.

(** ** Context Assembly in the words of the specification

    The texts of the fragments in the given order, a single space between
    each two neighbours, concatenated. *)
Fixpoint space_between (texts : list string) : list string :=
  match texts with
  | [] => []
  | [text] => [text]
  | text :: rest => text :: " " :: space_between rest
  end.

Definition assemble_spec {vector : Type} (fragments : list (FileChunk vector))
    : string :=
  foldr String.append "" (space_between (chunk_text <$> fragments)).

(** * Properties *)

(** ** Sorting by one key *)

Section Order_by.
Context {vector : Type} (key : FileChunk vector → Q).

#[local] Instance key_le_trans : Transitive (key_le key).
Proof. intros a b c. unfold key_le. apply Qle_trans. Qed.

Lemma insert_by_Permutation tie x l : insert_by key tie x l ≡ₚ x :: l.
Proof.
  induction l as [|y l IH]; simpl; [done|].
  destruct (Qle_bool (key x) (key y) && _); [done|].
  rewrite IH. apply Permutation_swap.
Qed.

Lemma order_by_Permutation tie l : order_by key tie l ≡ₚ l.
Proof.
  induction l as [|x l IH]; simpl; [done|].
  by rewrite insert_by_Permutation, IH.
Qed.

(** Whatever the executor does with rows of equal key, a row is put after
    the rows of smaller key and before the rows of greater key. *)
Lemma insert_by_sorted tie x l :
  StronglySorted (key_le key) l →
  StronglySorted (key_le key) (insert_by key tie x l).
Proof.
  induction 1 as [|y l Hl IH Hy]; simpl.
  - repeat constructor.
  - destruct (Qle_bool (key x) (key y)) eqn:Hxy; simpl.
    + apply Qle_bool_iff in Hxy.
      destruct (negb (Qle_bool (key y) (key x)) || tie x y) eqn:Hfirst.
      * constructor; [by constructor|].
        constructor; [done|].
        eapply Forall_impl; [exact Hy|].
        intros z Hz. by trans y.
      * apply orb_false_iff in Hfirst as [Hyx _].
        apply negb_false_iff, Qle_bool_iff in Hyx.
        constructor; [done|].
        rewrite insert_by_Permutation. by constructor.
    + constructor; [done|].
      rewrite insert_by_Permutation. constructor; [|done].
      unfold key_le. apply Qlt_le_weak, Qnot_le_lt.
      intros Hle. apply Qle_bool_iff in Hle. congruence.
Qed.

Lemma order_by_sorted tie l :
  StronglySorted (key_le key) (order_by key tie l).
Proof.
  induction l as [|x l IH]; simpl; [constructor|by apply insert_by_sorted].
Qed.

Lemma take_order_by_nearest tie k rows :
  nearest key k rows (take k (order_by key tie rows)).
Proof.
  pose proof (order_by_sorted tie rows) as Hsorted.
  rewrite <- (take_drop k (order_by key tie rows)) in Hsorted.
  apply StronglySorted_app in Hsorted as (Hcut & Htake & _).
  split; [|split; [done|]].
  - by rewrite length_take, order_by_Permutation.
  - exists (drop k (order_by key tie rows)). split; [|done].
    by rewrite take_drop, order_by_Permutation.
Qed.

Lemma distinct_keys_inj rows a b :
  distinct_keys key rows → a ∈ rows → b ∈ rows → (key a == key b)%Q → a = b.
Proof.
  unfold distinct_keys.
  induction rows as [|x rows IH]; intros Hnd Ha Hb Hab; [by inv Ha|].
  rewrite fmap_cons in Hnd. apply NoDup_cons in Hnd as [Hx Hnd].
  apply Qred_complete in Hab.
  inv Ha; inv Hb; try done.
  - exfalso. apply Hx. apply list_elem_of_fmap. by exists b.
  - exfalso. apply Hx. apply list_elem_of_fmap. by exists a.
  - apply IH; try done. by apply Qred_eq_iff.
Qed.

(** With no two rows at the same distance, neither the order in which the
    table gives its rows nor what the executor does with ties matters. *)
Lemma order_by_distinct tie tie' rows rows' :
  distinct_keys key rows → rows ≡ₚ rows' →
  order_by key tie rows = order_by key tie' rows'.
Proof.
  intros Hnd Hperm.
  apply (StronglySorted_unique_strong (key_le key)); try apply order_by_sorted.
  - intros a b Ha Hb Hab Hba.
    apply (distinct_keys_inj rows); try done.
    + by rewrite order_by_Permutation in Ha.
    + by rewrite order_by_Permutation, <- Hperm in Hb.
    + by apply Qle_antisym.
  - by rewrite !order_by_Permutation.
Qed.
End Order_by.

(** ** Strings: [split] and [join] *)

Lemma append_assoc (a b c : string) : (a +:+ b) +:+ c = a +:+ b +:+ c.
Proof.
  induction a as [|x a IH]; [reflexivity|exact (f_equal (String x) IH)].
Qed.

Lemma split_nonempty (sep : ascii) (s : string) : split sep s ≠ [].
Proof.
  destruct s as [|c s]; simpl; [done|].
  destruct (Ascii.eqb c sep); [done|]. by destruct (split sep s).
Qed.

(** A string without the separator is one piece. *)
Lemma split_one_piece (sep : ascii) (s : string) :
  has_char sep s = false → split sep s = [s].
Proof.
  induction s as [|c s IH]; simpl; [done|].
  intros Hc. apply orb_false_iff in Hc as [Hc Hs].
  rewrite Hc, (IH Hs). done.
Qed.

(** Splitting around one occurrence of the separator. *)
Lemma split_around (sep : ascii) (a b : string) :
  split sep (a +:+ String sep b) = split sep a ++ split sep b.
Proof.
  induction a as [|c a IH].
  - change (split sep (String sep b) = "" :: split sep b).
    simpl. by rewrite Ascii.eqb_refl.
  - change (split sep (String c (a +:+ String sep b))
            = split sep (String c a) ++ split sep b).
    simpl. rewrite IH. destruct (Ascii.eqb c sep); [done|].
    pose proof (split_nonempty sep a). by destruct (split sep a).
Qed.

(** What is after the last separator is the last piece. *)
Lemma last_split_suffix (sep : ascii) (stem suffix : string) :
  has_char sep suffix = false →
  last (split sep (stem +:+ String sep suffix)) = Some suffix.
Proof.
  intros Hsuffix.
  rewrite split_around, (split_one_piece _ _ Hsuffix).
  apply last_snoc.
Qed.

(** Splitting on the space gives back the texts that were joined, when
    there is a text and no text has a space. *)
Lemma split_join (texts : list string) :
  texts ≠ [] → Forall (λ text, has_char " " text = false) texts →
  split " " (join " " texts) = texts.
Proof.
  intros Hne Htexts.
  induction Htexts as [|text texts Htext Htexts IH]; [done|].
  destruct texts as [|text' texts]; [by apply split_one_piece|].
  change (split " " (text +:+ String " " (join " " (text' :: texts)))
          = text :: text' :: texts).
  rewrite split_around, (split_one_piece _ _ Htext), IH; done.
Qed.

(** [join] on a space is Context Assembly as the specification words it. *)
Lemma join_space_between (texts : list string) :
  join " " texts = foldr String.append "" (space_between texts).
Proof.
  induction texts as [|text texts IH]; [done|].
  destruct texts as [|text' texts].
  - simpl. induction text as [|c text IHtext]; [done|].
    exact (f_equal (String c) IHtext).
  - change (text +:+ " " +:+ join " " (text' :: texts)
            = text +:+ " " +:+ foldr String.append ""
                                 (space_between (text' :: texts))).
    by rewrite IH.
Qed.

(** ** Running the handlers *)

Ltac unfold_handlers :=
  unfold calls_made, Main.ask_question, MainEnsemble.ask_question,
    Main.get_similar_chunks, MainEnsemble.get_similar_chunks,
    MainEnsemble.default_limit, bind, try_except, ret, raise,
    os_environ_get, client_embeddings_create,
    client_chat_completions_create, db_scalars_all;
  simpl.

(** Case analysis on what the collaborators answer, in the order of the
    calls. *)
Ltac case_outcomes :=
  repeat match goal with
  | |- context [match ?r with Return _ => _ | Raise _ => _ end] =>
      lazymatch r with
      | embeddings_create _ _ _ => destruct r eqn:?
      | chat_completions_create _ _ _ => destruct r eqn:?
      | similar_chunks_query _ _ _ _ => destruct r eqn:?
      end; simpl
  end.

(** The calls made: what the run appended to the trace. *)
Ltac made_calls :=
  repeat rewrite <- app_assoc; simpl; rewrite ?drop_app_length, ?drop_all.

(** A call that is in a trace written out is one of its entries. *)
Ltac one_of_the_calls H :=
  repeat (apply elem_of_cons in H as [H|H]);
  try (by apply elem_of_nil in H);
  try discriminate H.

Section Retrieval.
Context {vector : Type} `{!Collaborators vector}.

(** A query with a limit that PostgreSQL accepts returns. *)
Lemma similar_chunks_query_returns (of_file : Z) (question_embedding : vector)
    (limit : Z) (rows : list (FileChunk vector)) :
  0 ≤ limit < 2 ^ 63 →
  similar_chunks_query of_file question_embedding limit rows =
  Return (take (Z.to_nat limit)
            (order_by (distance_to question_embedding)
               (tie_order rows of_file question_embedding limit)
               (chunks_of of_file rows))).
Proof.
  intros Hlimit. unfold similar_chunks_query.
  destruct (limit <? 0) eqn:Hneg; [lia|].
  destruct (2 ^ 63 <=? limit) eqn:Hbig; [lia|done].
Qed.

(** The retrieval of [main.py] is that of [main_ensemble.py] at 10. *)
Lemma get_similar_chunks_limit_10 (file_id : Z) (question : string)
    (w : World vector) :
  Main.get_similar_chunks file_id question w =
  MainEnsemble.get_similar_chunks file_id question 10 w.
Proof. reflexivity. Qed.

(** A retrieval whose question embeds returns what the query returns. *)
Lemma get_similar_chunks_embedded (file_id : Z) (question : string)
    (limit : Z) (w : World vector) (question_embedding : vector) :
  0 ≤ limit < 2 ^ 63 →
  embeddings_create (calls w) "BAAI/bge-en-icl" question
    = Return question_embedding →
  (MainEnsemble.get_similar_chunks file_id question limit w).1 =
  Return (take (Z.to_nat limit)
            (order_by (distance_to question_embedding)
               (tie_order (file_chunks w) file_id question_embedding limit)
               (chunks_of file_id (file_chunks w)))).
Proof.
  intros Hlimit Hembed. unfold_handlers. rewrite Hembed. simpl.
  by rewrite similar_chunks_query_returns.
Qed.
End Retrieval.

(** ** Retrieval: [get_similar_chunks] *)

(** C1, as amended.  When the question embeds and the limit is at least 1
    and below 2^63, [get_similar_chunks] returns the [limit] nearest of the
    rows of the table that carry the document's key, or all of them when
    there are fewer: the result is sorted by non-decreasing distance to the
    question's vector, it is made of rows of the document, and no row of
    the document left out is nearer than a returned one; [main.py] does so
    at the fixed limit 10.  When no two fragments of the document are at the
    same distance, the result is the same whatever the order in which the
    table holds its rows. *)
Theorem get_similar_chunks_nearest {vector : Type} `{!Collaborators vector}
    (w : World vector) (of_file : Z) (question : string) (limit : Z)
    (question_embedding : vector) :
  1 ≤ limit < 2 ^ 63 →
  embeddings_create (calls w) "BAAI/bge-en-icl" question
    = Return question_embedding →
  ∃ result : list (FileChunk vector),
    (MainEnsemble.get_similar_chunks of_file question limit w).1
      = Return result ∧
    (limit = 10 →
     (Main.get_similar_chunks of_file question w).1 = Return result) ∧
    nearest (distance_to question_embedding) (Z.to_nat limit)
      (filter (λ chunk, file_id chunk = of_file) (file_chunks w)) result ∧
    (distinct_keys (distance_to question_embedding)
       (filter (λ chunk, file_id chunk = of_file) (file_chunks w)) →
     ∀ w' : World vector,
       embeddings_create (calls w') "BAAI/bge-en-icl" question
         = Return question_embedding →
       filter (λ chunk, file_id chunk = of_file) (file_chunks w)
         ≡ₚ filter (λ chunk, file_id chunk = of_file) (file_chunks w') →
       (MainEnsemble.get_similar_chunks of_file question limit w').1
         = Return result).
Proof.
  intros Hlimit Hembed.
  eexists. split; [apply get_similar_chunks_embedded; [lia|done]|].
  split; [|split].
  - intros ->. rewrite get_similar_chunks_limit_10.
    apply get_similar_chunks_embedded; [lia|done].
  - apply (take_order_by_nearest (distance_to question_embedding) _ _
             (filter (λ chunk, file_id chunk = of_file) (file_chunks w))).
  - intros Hdistinct w' Hembed' Hperm.
    rewrite (get_similar_chunks_embedded _ _ _ _ question_embedding);
      [|lia|done].
    do 2 f_equal. symmetry. by apply order_by_distinct.
Qed.

(** At the fixture: three fragments, limit 2. *)
Lemma get_similar_chunks_nearest_witness :
  ∃ result : list (FileChunk Q),
    (@MainEnsemble.get_similar_chunks Q (Fixture.stub "") 1 "what are cats?" 2
       (Fixture.world [Fixture.F3; Fixture.F1; Fixture.F2])).1
      = Return result ∧
    nearest (@distance_to Q (Fixture.stub "") 0%Q) 2
      [Fixture.F3; Fixture.F1; Fixture.F2] result.
Proof.
  destruct (@get_similar_chunks_nearest Q (Fixture.stub "")
              (Fixture.world [Fixture.F3; Fixture.F1; Fixture.F2])
              1 "what are cats?" 2 0%Q)
    as (result & Hrun & _ & Hnearest & _); [lia|reflexivity|].
  exists result. split; [exact Hrun|exact Hnearest].
Defined.

(** C1, the counterexample.  Two tables hold the same two fragments of
    document 1, both at distance 1/10 of the question's vector, in opposite
    orders: at limit 1 one table answers with the first fragment and the
    other with the second, and [main.py] lists them in opposite orders, so
    no tie-break decides; at limit 2 a document of one fragment yields one
    fragment, not two; and at limit 2^63 the query is refused and the
    retrieval raises. *)
Lemma get_similar_chunks_ties_follow_row_order :
  let C := Fixture.stub "" in
  let q := "what are cats?" in
  [Fixture.F1; Fixture.F4] ≡ₚ [Fixture.F4; Fixture.F1] ∧
  (distance_to 0%Q Fixture.F1 == distance_to 0%Q Fixture.F4)%Q ∧
  (MainEnsemble.get_similar_chunks 1 q 1
     (Fixture.world [Fixture.F1; Fixture.F4])).1 = Return [Fixture.F1] ∧
  (MainEnsemble.get_similar_chunks 1 q 1
     (Fixture.world [Fixture.F4; Fixture.F1])).1 = Return [Fixture.F4] ∧
  (Main.get_similar_chunks 1 q
     (Fixture.world [Fixture.F1; Fixture.F4])).1
    = Return [Fixture.F1; Fixture.F4] ∧
  (Main.get_similar_chunks 1 q
     (Fixture.world [Fixture.F4; Fixture.F1])).1
    = Return [Fixture.F4; Fixture.F1] ∧
  (MainEnsemble.get_similar_chunks 1 q 2 (Fixture.world [Fixture.F1])).1
    = Return [Fixture.F1] ∧
  ∃ detail : string,
    (MainEnsemble.get_similar_chunks 1 q (2 ^ 63)
       (Fixture.world [Fixture.F1; Fixture.F4])).1
    = Raise (HTTPException 500 detail).
Proof.
  intros C q. split; [apply Permutation_swap|].
  split; [reflexivity|].
  repeat (split; [reflexivity|]).
  eexists. reflexivity.
Qed.

(** C4, as amended.  When the question embeds and the document has fewer
    fragments than the limit, the limit being below 2^63,
    [get_similar_chunks] returns every row of the table that carries the
    document's key, once, and nothing else, sorted by distance, and raises
    nothing; for a document without fragments it returns the empty list.
    [main.py] does so at its fixed limit 10. *)
Theorem get_similar_chunks_shortfall {vector : Type} `{!Collaborators vector}
    (w : World vector) (of_file : Z) (question : string) (limit : Z)
    (question_embedding : vector) :
  embeddings_create (calls w) "BAAI/bge-en-icl" question
    = Return question_embedding →
  Z.of_nat (length (filter (λ chunk, file_id chunk = of_file)
                      (file_chunks w))) < limit < 2 ^ 63 →
  ∃ result : list (FileChunk vector),
    (MainEnsemble.get_similar_chunks of_file question limit w).1
      = Return result ∧
    (limit = 10 →
     (Main.get_similar_chunks of_file question w).1 = Return result) ∧
    result ≡ₚ filter (λ chunk, file_id chunk = of_file) (file_chunks w) ∧
    (∀ chunk : FileChunk vector,
       chunk ∈ result ↔ chunk ∈ file_chunks w ∧ file_id chunk = of_file) ∧
    length result
      = length (filter (λ chunk, file_id chunk = of_file) (file_chunks w)) ∧
    StronglySorted (key_le (distance_to question_embedding)) result ∧
    (filter (λ chunk, file_id chunk = of_file) (file_chunks w) = [] →
     result = []).
Proof.
  intros Hembed Hfew.
  set (tie := tie_order (file_chunks w) of_file question_embedding limit).
  exists (order_by (distance_to question_embedding) tie
            (chunks_of of_file (file_chunks w))).
  assert (take (Z.to_nat limit)
            (order_by (distance_to question_embedding) tie
               (chunks_of of_file (file_chunks w)))
          = order_by (distance_to question_embedding) tie
              (chunks_of of_file (file_chunks w))) as Htake.
  { apply take_ge. rewrite order_by_Permutation. unfold chunks_of. lia. }
  split; [|split; [|split; [|split; [|split; [|split]]]]].
  - rewrite <- Htake. apply get_similar_chunks_embedded; [lia|done].
  - intros ->. rewrite get_similar_chunks_limit_10, <- Htake.
    apply get_similar_chunks_embedded; [lia|done].
  - apply order_by_Permutation.
  - intros chunk. rewrite order_by_Permutation. unfold chunks_of.
    rewrite list_elem_of_filter. tauto.
  - by rewrite order_by_Permutation.
  - apply order_by_sorted.
  - intros Hnone.
    change (chunks_of of_file (file_chunks w) = []) in Hnone.
    by rewrite Hnone.
Qed.

(** At the fixture: three fragments, limit 5. *)
Lemma get_similar_chunks_shortfall_witness :
  ∃ result : list (FileChunk Q),
    (@MainEnsemble.get_similar_chunks Q (Fixture.stub "") 1 "what are cats?" 5
       (Fixture.world [Fixture.F3; Fixture.F1; Fixture.F2])).1
      = Return result ∧
    length result = 3%nat.
Proof.
  destruct (@get_similar_chunks_shortfall Q (Fixture.stub "")
              (Fixture.world [Fixture.F3; Fixture.F1; Fixture.F2])
              1 "what are cats?" 5 0%Q)
    as (result & Hrun & _ & _ & _ & Hlength & _);
    [reflexivity|split; [vm_compute; reflexivity|lia]|].
  exists result. split; [exact Hrun|exact Hlength].
Defined.

(** C4, the counterexample.  Document 1 has one fragment and the question
    embeds; at limit 2^63, which is more than one, the query is refused and
    the retrieval raises an [HTTPException] of status 500 in place of
    returning the fragment. *)
Lemma get_similar_chunks_refuses_limit_2_63 :
  let C := Fixture.stub "" in
  let w := Fixture.world [Fixture.F1] in
  embeddings_create (calls w) "BAAI/bge-en-icl" "what are cats?"
    = Return 0%Q ∧
  Z.of_nat (length (filter (λ chunk, file_id chunk = 1) (file_chunks w)))
    < 2 ^ 63 ∧
  ∃ detail : string,
    (MainEnsemble.get_similar_chunks 1 "what are cats?" (2 ^ 63) w).1
    = Raise (HTTPException 500 detail).
Proof.
  intros C w. split; [reflexivity|]. split; [vm_compute; reflexivity|].
  eexists. reflexivity.
Qed.

(** ** Synthesis: [ask_question] *)

Lemma contains_here (x after : string) : contains (x +:+ after) x.
Proof. by exists "", after. Qed.

Lemma contains_later (a s x : string) : contains s x → contains (a +:+ s) x.
Proof.
  intros (before & after & ->). exists (a +:+ before), after.
  by rewrite append_assoc.
Qed.

(** A piece of a concatenation written out is contained in it. *)
Ltac piece_of_concatenation :=
  repeat first [apply contains_here | apply contains_later].

(** The scenario of the specification: fragments at distances 1/10, 3/10
    and 9/10, stored in another order.  [main.py] has no parameter for the
    number of fragments: it asks for 10 and gets the three, nearest first,
    and calls the completion API once with their texts as context. *)
Example ask_question_end_to_end :
  calls_made
    (@Main.ask_question Q (Fixture.stub "") (mkAskModel 1 "what are cats?"))
    (Fixture.world [Fixture.F3; Fixture.F1; Fixture.F2]) =
  [EmbeddingsCreate "BAAI/bge-en-icl" "what are cats?" (Return 0%Q);
   Select 1 0%Q 10 (Return [Fixture.F1; Fixture.F2; Fixture.F3]);
   ChatCompletionsCreate "Qwen/Qwen2.5-Coder-32B-Instruct"
     [mkMessage "system"
        "You are a helpful assistant. Here is the context to use to reply to the user question: cats are mammals dogs are loyal fish swim";
      mkMessage "user" "what are cats?"]
     (Return "answer of Qwen/Qwen2.5-Coder-32B-Instruct")].
Proof. reflexivity. Qed.

(** C2.  In [main_ensemble.py], whenever the call to the secondary model
    (Meta-Llama-3.1-405B) raises, [ask_question] raises an [HTTPException]
    of status 500 that carries the text of that exception, so no answer is
    returned, and the run makes no call to the fusion model
    (Llama-3.1-Nemotron-70B). *)
Theorem ensemble_secondary_failure_aborts {vector : Type}
    `{!Collaborators vector} (w : World vector) (request : AskModel)
    (messages : list Message) (e : exn) :
  ChatCompletionsCreate "meta-llama/Meta-Llama-3.1-405B-Instruct" messages
    (Raise e) ∈ calls_made (MainEnsemble.ask_question request) w →
  (MainEnsemble.ask_question request w).1
    = Raise (HTTPException 500 (str e)) ∧
  ∀ (messages' : list Message) (result : outcome string),
    ChatCompletionsCreate "nvidia/Llama-3.1-Nemotron-70B-Instruct-HF"
      messages' result ∉ calls_made (MainEnsemble.ask_question request) w.
Proof.
  unfold_handlers.
  destruct (environ w !! "NEBIUS_API_KEY") as [api_key|]; simpl;
    case_outcomes; made_calls; intros Hin; one_of_the_calls Hin.
  injection Hin as _ <-.
  split; [done|].
  intros messages' result Hfusion. one_of_the_calls Hfusion.
Qed.

(** At the fixture, with a secondary model that raises. *)
Lemma ensemble_secondary_failure_aborts_witness :
  (@MainEnsemble.ask_question Q
     (Fixture.stub "meta-llama/Meta-Llama-3.1-405B-Instruct")
     (mkAskModel 1 "what are cats?")
     (Fixture.world [Fixture.F3; Fixture.F1; Fixture.F2])).1
  = Raise (HTTPException 500 "model unavailable").
Proof.
  refine (proj1 (@ensemble_secondary_failure_aborts Q
                   (Fixture.stub "meta-llama/Meta-Llama-3.1-405B-Instruct")
                   (Fixture.world [Fixture.F3; Fixture.F1; Fixture.F2])
                   (mkAskModel 1 "what are cats?")
                   [mkMessage "system"
                      (draft_system_message
                         "cats are mammals dogs are loyal fish swim");
                    mkMessage "user" "what are cats?"]
                   (Exception "model unavailable") _)).
  apply list_elem_of_In. vm_compute. do 5 right. left. reflexivity.
Defined.

(** C3.  In [main_ensemble.py], whenever [ask_question] calls the fusion
    model, the run is: the question embedded and the 5 nearest fragments
    selected, the question embedded again and the 10 nearest selected, the
    primary model asked with the first context, the secondary model with
    the second, then the fusion model; the system message of that last call
    contains the two contexts and the two drafted answers as substrings, and
    its user message is the question of the request. *)
Theorem ensemble_fusion_prompt_complete {vector : Type}
    `{!Collaborators vector} (w : World vector) (request : AskModel)
    (messages : list Message) (result : outcome string) :
  ChatCompletionsCreate "nvidia/Llama-3.1-Nemotron-70B-Instruct-HF"
    messages result ∈ calls_made (MainEnsemble.ask_question request) w →
  ∃ (v v' : vector) (chunksA chunksB : list (FileChunk vector))
    (answerA answerB system_message : string),
    let contextA := join " " (map chunk_text chunksA) in
    let contextB := join " " (map chunk_text chunksB) in
    calls_made (MainEnsemble.ask_question request) w =
      [EmbeddingsCreate "BAAI/bge-en-icl" (question request) (Return v);
       Select (document_id request) v 5 (Return chunksA);
       EmbeddingsCreate "BAAI/bge-en-icl" (question request) (Return v');
       Select (document_id request) v' 10 (Return chunksB);
       ChatCompletionsCreate "Qwen/Qwen2.5-Coder-32B-Instruct"
         [mkMessage "system" (draft_system_message contextA);
          mkMessage "user" (question request)] (Return answerA);
       ChatCompletionsCreate "meta-llama/Meta-Llama-3.1-405B-Instruct"
         [mkMessage "system" (draft_system_message contextB);
          mkMessage "user" (question request)] (Return answerB);
       ChatCompletionsCreate "nvidia/Llama-3.1-Nemotron-70B-Instruct-HF"
         messages result] ∧
    messages = [mkMessage "system" system_message;
                mkMessage "user" (question request)] ∧
    contains system_message contextA ∧
    contains system_message contextB ∧
    contains system_message answerA ∧
    contains system_message answerB.
Proof.
  unfold_handlers.
  destruct (environ w !! "NEBIUS_API_KEY") as [api_key|]; simpl;
    case_outcomes; made_calls; intros Hin; one_of_the_calls Hin.
  all: injection Hin as -> ->.
  all: eexists _, _, _, _, _, _, _; simpl.
  all: split; [reflexivity|split; [reflexivity|]].
  all: unfold MainEnsemble.final_system_message.
  all: repeat split; piece_of_concatenation.
Qed.

(** At the fixture, with models that all answer. *)
Lemma ensemble_fusion_prompt_complete_witness :
  ∃ (answerB system_message : string),
    [mkMessage "system"
       (MainEnsemble.final_system_message
          "cats are mammals dogs are loyal fish swim"
          "cats are mammals dogs are loyal fish swim"
          "answer of Qwen/Qwen2.5-Coder-32B-Instruct"
          "answer of meta-llama/Meta-Llama-3.1-405B-Instruct");
     mkMessage "user" "what are cats?"]
    = [mkMessage "system" system_message;
       mkMessage "user" "what are cats?"] ∧
    contains system_message answerB.
Proof.
  destruct (@ensemble_fusion_prompt_complete Q (Fixture.stub "")
              (Fixture.world [Fixture.F3; Fixture.F1; Fixture.F2])
              (mkAskModel 1 "what are cats?")
              [mkMessage "system"
                 (MainEnsemble.final_system_message
                    "cats are mammals dogs are loyal fish swim"
                    "cats are mammals dogs are loyal fish swim"
                    "answer of Qwen/Qwen2.5-Coder-32B-Instruct"
                    "answer of meta-llama/Meta-Llama-3.1-405B-Instruct");
               mkMessage "user" "what are cats?"]
              (Return "answer of nvidia/Llama-3.1-Nemotron-70B-Instruct-HF"))
    as (v & v' & chunksA & chunksB & answerA & answerB & system_message
        & _ & Hmessages & _ & _ & _ & HanswerB).
  - apply list_elem_of_In. vm_compute. do 6 right. left. reflexivity.
  - exists answerB, system_message. split; [exact Hmessages|exact HanswerB].
Defined.

(** C6.  In [main.py], once the API key is set and the question embeds,
    [ask_question] calls the completion API exactly once, for the model
    Qwen2.5-Coder-32B, with exactly two messages: a system message that is
    the fixed sentence followed by the context (the texts of the retrieved
    fragments joined by spaces) and a user message that is the question as
    received.  What the API answers is returned as it is under the key
    [response]; what it raises becomes an [HTTPException] of status 500. *)
Theorem single_model_synthesis {vector : Type} `{!Collaborators vector}
    (w : World vector) (request : AskModel) (api_key : string) (v : vector) :
  environ w !! "NEBIUS_API_KEY" = Some api_key →
  embeddings_create (calls w) "BAAI/bge-en-icl" (question request)
    = Return v →
  ∃ (similar_chunks : list (FileChunk vector)) (result : outcome string),
    let context := join " " (map chunk_text similar_chunks) in
    let messages :=
      [mkMessage "system"
         ("You are a helpful assistant. Here is the context to use to reply to the user question: "
          +:+ context);
       mkMessage "user" (question request)] in
    (Main.get_similar_chunks (document_id request) (question request) w).1
      = Return similar_chunks ∧
    calls_made (Main.ask_question request) w =
      [EmbeddingsCreate "BAAI/bge-en-icl" (question request) (Return v);
       Select (document_id request) v 10 (Return similar_chunks);
       ChatCompletionsCreate "Qwen/Qwen2.5-Coder-32B-Instruct" messages
         result] ∧
    (∀ text : string,
       result = Return text →
       (Main.ask_question request w).1 = Return {["response" := text]}) ∧
    (∀ e : exn,
       result = Raise e →
       (Main.ask_question request w).1
         = Raise (HTTPException 500 (str e))).
Proof.
  intros Hkey Hembed.
  pose proof (similar_chunks_query_returns (document_id request) v 10
                (file_chunks w)) as Hquery.
  unfold_handlers. rewrite Hkey, Hembed. simpl.
  rewrite Hquery by lia. simpl.
  case_outcomes; made_calls.
  all: eexists _, _; split; [reflexivity|].
  all: split; [reflexivity|split; congruence].
Qed.

(** At the fixture. *)
Lemma single_model_synthesis_witness :
  ∃ (similar_chunks : list (FileChunk Q)) (result : outcome string),
    calls_made
      (@Main.ask_question Q (Fixture.stub "")
         (mkAskModel 1 "what are cats?"))
      (Fixture.world [Fixture.F3; Fixture.F1; Fixture.F2]) =
      [EmbeddingsCreate "BAAI/bge-en-icl" "what are cats?" (Return 0%Q);
       Select 1 0%Q 10 (Return similar_chunks);
       ChatCompletionsCreate "Qwen/Qwen2.5-Coder-32B-Instruct"
         [mkMessage "system"
            ("You are a helpful assistant. Here is the context to use to reply to the user question: "
             +:+ join " " (map chunk_text similar_chunks));
          mkMessage "user" "what are cats?"]
         result].
Proof.
  destruct (@single_model_synthesis Q (Fixture.stub "")
              (Fixture.world [Fixture.F3; Fixture.F1; Fixture.F2])
              (mkAskModel 1 "what are cats?") "secret" 0%Q)
    as (similar_chunks & result & _ & Hcalls & _);
    [reflexivity|reflexivity|].
  exists similar_chunks, result. exact Hcalls.
Defined.

(** C5.  Context Assembly, which the handlers write [" ".join(...)] over
    the texts of the fragments, is the texts in the given order with a
    single space between each two neighbours, concatenated: it agrees with
    the specification's wording, splitting it on the space gives the texts
    back when none of them has a space, and for no fragments it is the empty
    string.  With that empty context [ask_question] of [main.py] still
    calls the completion API, once, with the fixed sentence alone as system
    message, and returns the answer it gets. *)
Theorem context_assembly_tolerates_empty {vector : Type}
    `{!Collaborators vector} :
  (∀ fragments : list (FileChunk vector),
     join " " (map chunk_text fragments) = assemble_spec fragments) ∧
  join " " (map (@chunk_text vector) []) = "" ∧
  (∀ fragments : list (FileChunk vector),
     fragments ≠ [] →
     Forall (λ fragment, has_char " " (chunk_text fragment) = false)
       fragments →
     split " " (join " " (map chunk_text fragments))
       = map chunk_text fragments) ∧
  ∀ (w : World vector) (request : AskModel) (api_key : string) (v : vector),
    environ w !! "NEBIUS_API_KEY" = Some api_key →
    embeddings_create (calls w) "BAAI/bge-en-icl" (question request)
      = Return v →
    chunks_of (document_id request) (file_chunks w) = [] →
    ∃ result : outcome string,
      calls_made (Main.ask_question request) w =
        [EmbeddingsCreate "BAAI/bge-en-icl" (question request) (Return v);
         Select (document_id request) v 10 (Return []);
         ChatCompletionsCreate "Qwen/Qwen2.5-Coder-32B-Instruct"
           [mkMessage "system"
              "You are a helpful assistant. Here is the context to use to reply to the user question: ";
            mkMessage "user" (question request)]
           result] ∧
      ∀ text : string,
        result = Return text →
        (Main.ask_question request w).1 = Return {["response" := text]}.
Proof.
  split; [|split; [|split]].
  - intros fragments. apply join_space_between.
  - reflexivity.
  - intros fragments Hne Htexts. apply split_join.
    + by destruct fragments.
    + by apply Forall_fmap.
  - intros w request api_key v Hkey Hembed Hnone.
    pose proof (similar_chunks_query_returns (document_id request) v 10
                  (file_chunks w)) as Hquery.
    rewrite Hnone in Hquery. simpl in Hquery.
    unfold_handlers. rewrite Hkey, Hembed. simpl.
    rewrite ?Hquery, ?Hnone by lia. simpl.
    case_outcomes; made_calls.
    all: eexists; split; [reflexivity|congruence].
Qed.

(** At the fixture, for a document without fragments. *)
Lemma context_assembly_tolerates_empty_witness :
  ∃ result : outcome string,
    calls_made
      (@Main.ask_question Q (Fixture.stub "")
         (mkAskModel 1 "what are cats?"))
      (Fixture.world []) =
      [EmbeddingsCreate "BAAI/bge-en-icl" "what are cats?" (Return 0%Q);
       Select 1 0%Q 10 (Return []);
       ChatCompletionsCreate "Qwen/Qwen2.5-Coder-32B-Instruct"
         [mkMessage "system"
            "You are a helpful assistant. Here is the context to use to reply to the user question: ";
          mkMessage "user" "what are cats?"]
         result] ∧
    ∀ text : string,
      result = Return text →
      (@Main.ask_question Q (Fixture.stub "")
         (mkAskModel 1 "what are cats?") (Fixture.world [])).1
      = Return {["response" := text]}.
Proof.
  apply (proj2 (proj2 (proj2
           (@context_assembly_tolerates_empty Q (Fixture.stub ""))))
           (Fixture.world []) (mkAskModel 1 "what are cats?") "secret" 0%Q);
    reflexivity.
Defined.

(** C7.  Once the API key is set and the embedding API answers for the
    question, [ask_question] of [main_ensemble.py] runs exactly two
    queries, both for the document of the request, the first with limit 5
    and the second with limit 10, after embedding the same question twice;
    [ask_question] of [main.py] runs exactly one, with limit 10. *)
Theorem retrieval_passes_and_limits {vector : Type} `{!Collaborators vector}
    (w : World vector) (request : AskModel) (api_key : string) :
  environ w !! "NEBIUS_API_KEY" = Some api_key →
  (∀ history : list (Call vector),
     ∃ v : vector,
       embeddings_create history "BAAI/bge-en-icl" (question request)
         = Return v) →
  (∃ (v v' : vector) (k1 k2 : Z),
     selects (calls_made (MainEnsemble.ask_question request) w)
       = [(document_id request, v, k1); (document_id request, v', k2)] ∧
     embedded (calls_made (MainEnsemble.ask_question request) w)
       = [question request; question request] ∧
     k1 = 5 ∧ k2 = 10 ∧ k1 < k2) ∧
  (∃ v : vector,
     selects (calls_made (Main.ask_question request) w)
       = [(document_id request, v, 10)] ∧
     embedded (calls_made (Main.ask_question request) w)
       = [question request]).
Proof.
  intros Hkey Hembed. split.
  - unfold_handlers. rewrite Hkey. simpl.
    destruct (Hembed (calls w)) as [v Hv]. rewrite Hv. simpl.
    rewrite (similar_chunks_query_returns _ v 5) by lia. simpl.
    match goal with
    | |- context [embeddings_create ?h "BAAI/bge-en-icl" (question request)] =>
        destruct (Hembed h) as [v' Hv']; rewrite Hv'
    end. simpl.
    rewrite (similar_chunks_query_returns _ v' 10) by lia. simpl.
    exists v, v', 5, 10.
    case_outcomes; made_calls; repeat split; lia.
  - unfold_handlers. rewrite Hkey. simpl.
    destruct (Hembed (calls w)) as [v Hv]. rewrite Hv. simpl.
    rewrite (similar_chunks_query_returns _ v 10) by lia. simpl.
    exists v.
    case_outcomes; made_calls; repeat split.
Qed.

(** At the fixture. *)
Lemma retrieval_passes_and_limits_witness :
  ∃ v v' : Q,
    selects
      (calls_made
         (@MainEnsemble.ask_question Q (Fixture.stub "")
            (mkAskModel 1 "what are cats?"))
         (Fixture.world [Fixture.F3; Fixture.F1; Fixture.F2]))
    = [(1, v, 5); (1, v', 10)].
Proof.
  destruct (@retrieval_passes_and_limits Q (Fixture.stub "")
              (Fixture.world [Fixture.F3; Fixture.F1; Fixture.F2])
              (mkAskModel 1 "what are cats?") "secret")
    as [(v & v' & k1 & k2 & Hselects & _ & -> & -> & _) _].
  - reflexivity.
  - intros history. exists 0%Q. reflexivity.
  - exists v, v'. exact Hselects.
Defined.

(** ** Configuration and repeated requests *)

(** C8, as amended.  [ask_question] checks [NEBIUS_API_KEY] in the
    environment at the start of the request, each time it is called: a
    request made while the key is absent raises an [HTTPException] of
    status 500, "NEBIUS API key not set", before any call to the embedding
    API, the database or a model, and leaves the world as it was; so every
    further request made in that world fails the same way.  So in
    [main.py] and in [main_ensemble.py]. *)
Theorem ask_question_checks_api_key {vector : Type} `{!Collaborators vector}
    (w : World vector) (request : AskModel) :
  environ w !! "NEBIUS_API_KEY" = None →
  (Main.ask_question request w
     = (Raise (HTTPException 500 "NEBIUS API key not set"), w) ∧
   ∀ request' : AskModel,
     Main.ask_question request' (Main.ask_question request w).2
     = (Raise (HTTPException 500 "NEBIUS API key not set"), w)) ∧
  (MainEnsemble.ask_question request w
     = (Raise (HTTPException 500 "NEBIUS API key not set"), w) ∧
   ∀ request' : AskModel,
     MainEnsemble.ask_question request'
       (MainEnsemble.ask_question request w).2
     = (Raise (HTTPException 500 "NEBIUS API key not set"), w)).
Proof.
  intros Hkey. unfold_handlers. rewrite Hkey. simpl.
  by rewrite Hkey.
Qed.

(** At the fixture, without the key in the environment. *)
Lemma ask_question_checks_api_key_witness :
  @Main.ask_question Q (Fixture.stub "") (mkAskModel 1 "what are cats?")
    (Fixture.world_without_key [Fixture.F1])
  = (Raise (HTTPException 500 "NEBIUS API key not set"),
     Fixture.world_without_key [Fixture.F1]).
Proof.
  apply (@ask_question_checks_api_key Q (Fixture.stub "")
           (Fixture.world_without_key [Fixture.F1])
           (mkAskModel 1 "what are cats?")).
  reflexivity.
Defined.

(** C8, the counterexample.  With the key absent, a request is handled and
    fails with the configuration error; the same request on the world it
    left is handled and fails the same way again: the fault is met on each
    call, and nothing keeps the operation from being invoked.  So in
    [main.py] and in [main_ensemble.py]. *)
Lemma ask_question_fails_on_each_call_without_key :
  let C := Fixture.stub "" in
  let request := mkAskModel 1 "what are cats?" in
  let w := Fixture.world_without_key [Fixture.F1] in
  let fault := Raise (HTTPException 500 "NEBIUS API key not set") in
  Main.ask_question request w = (fault, w) ∧
  Main.ask_question request (Main.ask_question request w).2 = (fault, w) ∧
  MainEnsemble.ask_question request w = (fault, w) ∧
  MainEnsemble.ask_question request (MainEnsemble.ask_question request w).2
    = (fault, w).
Proof.
  intros C request w fault. repeat split; reflexivity.
Qed.

(** What an API answers, for deterministic stubs, is what it answers before
    any call. *)
Ltac forget_history Hemb Hchat :=
  repeat match goal with
  | |- context [embeddings_create ?h ?m ?i] =>
      lazymatch h with
      | [] => fail
      | _ => rewrite (Hemb h [] m i)
      end
  | |- context [chat_completions_create ?h ?m ?i] =>
      lazymatch h with
      | [] => fail
      | _ => rewrite (Hchat h [] m i)
      end
  end.

Ltac replay Hemb Hchat Hrows :=
  repeat (rewrite ?Hrows; forget_history Hemb Hchat;
          match goal with
          | |- context [match ?r with Return _ => _ | Raise _ => _ end] =>
              lazymatch r with
              | embeddings_create _ _ _ => destruct r eqn:?
              | chat_completions_create _ _ _ => destruct r eqn:?
              | similar_chunks_query _ _ _ _ => destruct r eqn:?
              end; simpl
          end).

Section Repeated_requests.
Context {vector : Type} `{!Collaborators vector}.

(** With deterministic stubs the outcome of a request is decided by the
    environment and the table of fragments. *)
Lemma ask_question_decided_by_state (w w' : World vector)
    (request : AskModel) :
  deterministic_stubs →
  environ w' = environ w → file_chunks w' = file_chunks w →
  (Main.ask_question request w').1 = (Main.ask_question request w).1 ∧
  (MainEnsemble.ask_question request w').1
    = (MainEnsemble.ask_question request w).1.
Proof.
  intros [Hemb Hchat] Henv Hrows. unfold_handlers. rewrite Henv.
  split.
  all: destruct (environ w !! "NEBIUS_API_KEY") as [api_key|]; simpl;
    [|done].
  all: replay Hemb Hchat Hrows; reflexivity.
Qed.

(** A request touches nothing but the trace. *)
Lemma ask_question_same_state (w : World vector) (request : AskModel) :
  same_state w (Main.ask_question request w).2 ∧
  same_state w (MainEnsemble.ask_question request w).2.
Proof.
  unfold_handlers. split.
  all: destruct (environ w !! "NEBIUS_API_KEY") as [api_key|]; simpl;
    [|done].
  all: case_outcomes; done.
Qed.
End Repeated_requests.

(** C9.  With deterministic stubs, asking the same question about the same
    document a second time, in the world the first request left, gives the
    outcome of the first time; and the first request left the environment,
    the tables, the files and the task queue as they were.  So in
    [main.py] and in [main_ensemble.py]. *)
Theorem ask_question_idempotent {vector : Type} `{!Collaborators vector}
    (w : World vector) (request : AskModel) :
  deterministic_stubs →
  ((Main.ask_question request (Main.ask_question request w).2).1
     = (Main.ask_question request w).1 ∧
   same_state w (Main.ask_question request w).2) ∧
  ((MainEnsemble.ask_question request
      (MainEnsemble.ask_question request w).2).1
     = (MainEnsemble.ask_question request w).1 ∧
   same_state w (MainEnsemble.ask_question request w).2).
Proof.
  intros Hstubs.
  destruct (ask_question_same_state w request) as [Hmain Hensemble].
  split; (split; [|done]).
  - destruct Hmain as (Henv & Hrows & _).
    by apply ask_question_decided_by_state.
  - destruct Hensemble as (Henv & Hrows & _).
    by apply ask_question_decided_by_state.
Qed.

(** At the fixture, whose stubs ignore the calls made before. *)
Lemma ask_question_idempotent_witness :
  (@Main.ask_question Q (Fixture.stub "") (mkAskModel 1 "what are cats?")
     (@Main.ask_question Q (Fixture.stub "") (mkAskModel 1 "what are cats?")
        (Fixture.world [Fixture.F3; Fixture.F1; Fixture.F2])).2).1
  = (@Main.ask_question Q (Fixture.stub "") (mkAskModel 1 "what are cats?")
       (Fixture.world [Fixture.F3; Fixture.F1; Fixture.F2])).1.
Proof.
  refine (proj1 (proj1 (@ask_question_idempotent Q (Fixture.stub "")
                          (Fixture.world [Fixture.F3; Fixture.F1; Fixture.F2])
                          (mkAskModel 1 "what are cats?") _))).
  split; intros; reflexivity.
Defined.

(** ** Ingestion: [upload_file] *)

Section Upload.
Context {vector : Type} `{!Collaborators vector}.

(** A file whose last piece after splitting on the dot is not allowed is
    refused with nothing done. *)
Lemma upload_file_refuses (w : World vector) (file : UploadFile)
    (file_extension : string) :
  last (split "." (filename file)) = Some file_extension →
  file_extension ∉ ["txt"; "pdf"] →
  upload_file file w
    = (Raise (HTTPException 400 "File type not allowed"), w).
Proof.
  intros Hlast Hnot. unfold upload_file, bind, index_last.
  rewrite Hlast. unfold ret at 1.
  by destruct (decide (file_extension ∈ ["txt"; "pdf"])).
Qed.
End Upload.

(** An upload that is accepted writes the file without its null bytes,
    adds a row to the table of documents and queues the chunk-and-embed
    task. *)
Example upload_file_accepts_txt :
  let w' := (@Main.upload_file Q (Fixture.stub "")
               (mkUploadFile "notes.txt" [Byte.x68; Byte.x00; Byte.x69])
               (Fixture.world [])).2 in
  file_system w' !! "sources/notes.txt" = Some [Byte.x68; Byte.x69] ∧
  files w' = [mkFile 1 "notes.txt" "hi"] ∧
  background_tasks w' = [(1, "hi")].
Proof. repeat split; reflexivity. Qed.

(** C10.  An upload whose file name ends, after its last dot, in something
    other than [txt] and [pdf] raises an [HTTPException] of status 400,
    "File type not allowed", and leaves the world as it was: no directory
    made, no file written, no row added, no task queued.  So in [main.py]
    and in [main_ensemble.py]. *)
Theorem upload_file_rejects_extension {vector : Type}
    `{!Collaborators vector} (w : World vector) (file : UploadFile)
    (stem extension : string) :
  filename file = stem +:+ "." +:+ extension →
  has_char "." extension = false →
  extension ≠ "txt" → extension ≠ "pdf" →
  Main.upload_file file w
    = (Raise (HTTPException 400 "File type not allowed"), w) ∧
  MainEnsemble.upload_file file w
    = (Raise (HTTPException 400 "File type not allowed"), w).
Proof.
  intros Hname Hdot Htxt Hpdf.
  assert (last (split "." (filename file)) = Some extension) as Hlast.
  { rewrite Hname. by apply last_split_suffix. }
  assert (extension ∉ ["txt"; "pdf"]) as Hnot.
  { intros Hin. one_of_the_calls Hin; congruence. }
  split; by apply (upload_file_refuses w file extension).
Qed.

(** At the fixture: [report.txt.exe] ends in [exe]. *)
Lemma upload_file_rejects_extension_witness :
  @Main.upload_file Q (Fixture.stub "")
    (mkUploadFile "report.txt.exe" [Byte.x68; Byte.x69]) (Fixture.world [])
  = (Raise (HTTPException 400 "File type not allowed"), Fixture.world []).
Proof.
  apply (@upload_file_rejects_extension Q (Fixture.stub "") (Fixture.world [])
           (mkUploadFile "report.txt.exe" [Byte.x68; Byte.x69])
           "report.txt" "exe"); [reflexivity|reflexivity|discriminate..].
Defined.

(** * Further properties of the handlers *)

(** ** [upload_file]: what an upload leaves behind *)

Ltac unfold_upload :=
  unfold Main.upload_file, MainEnsemble.upload_file, upload_file, bind,
    try_except, index_last, os_makedirs, write_file, file_parser_parse,
    db_add_file, add_task, ret, raise.

Ltac world_fields :=
  cbn [environ file_chunks files directories file_system background_tasks
       calls fst snd].

(** The steps of an upload, one case for each place where it can stop. *)
Ltac upload_cases file w :=
  unfold_upload;
  let Hlast := fresh "Hlast" in
  destruct (last (split "." (filename file))) as [?file_extension|]
    eqn:Hlast;
    [|apply last_None in Hlast; by apply split_nonempty in Hlast];
  destruct (decide (_ ∈ ["txt"; "pdf"])) as [?Hallowed|?Hallowed];
    [destruct (file_system w !! "sources") eqn:?Hsources;
      [|destruct (open_wb (os_path_join "sources" (filename file)))
          eqn:?Hopen;
        [|world_fields; rewrite lookup_insert_eq;
          destruct (parse _ _) eqn:?Hparse; world_fields]]|].

Section Upload_effects.
Context {vector : Type} `{!Collaborators vector}.

Lemma remove_null_bytes_no_null (data : list Byte.byte) :
  Byte.x00 ∉ remove_null_bytes data.
Proof.
  unfold remove_null_bytes. rewrite list_elem_of_In, filter_In.
  intros [_ Hkept]. by rewrite Byte.byte_dec_lb in Hkept.
Qed.

Lemma remove_null_bytes_sublist (data : list Byte.byte) :
  remove_null_bytes data `sublist_of` data.
Proof.
  unfold remove_null_bytes.
  induction data as [|b data IH]; simpl; [done|].
  destruct (negb (Byte.eqb b Byte.x00));
    [by apply sublist_skip|by apply sublist_cons].
Qed.

(** An upload reads and writes neither the environment, nor the table of
    fragments, nor the trace. *)
Lemma upload_file_keeps_retrieval_state (w : World vector)
    (file : UploadFile) :
  environ (upload_file file w).2 = environ w ∧
  file_chunks (upload_file file w).2 = file_chunks w ∧
  calls (upload_file file w).2 = calls w.
Proof. upload_cases file w; done. Qed.
End Upload_effects.

(** X1.  An upload named [stem.txt] or [stem.pdf], when [sources] is not a
    file, the file opens and the parser gives a text, answers "File saved"
    with the file name, and leaves: the directory [sources]; the file, at
    [sources] joined with the name, holding the content without its null
    bytes; one new row with the name and the parsed text; and one queued
    task for the key of that row and that text. *)
Theorem upload_file_saves {vector : Type} `{!Collaborators vector}
    (w : World vector) (file : UploadFile) (stem extension text : string) :
  filename file = stem +:+ "." +:+ extension →
  has_char "." extension = false →
  extension = "txt" ∨ extension = "pdf" →
  file_system w !! "sources" = None →
  open_wb (os_path_join "sources" (filename file)) = None →
  parse (os_path_join "sources" (filename file))
    (remove_null_bytes (content file)) = Return text →
  (upload_file file w).1
    = Return (<["info" := "File saved"]> {["filename" := filename file]}) ∧
  directories (upload_file file w).2 = {["sources"]} ∪ directories w ∧
  file_system (upload_file file w).2
    = <[os_path_join "sources" (filename file)
        := remove_null_bytes (content file)]> (file_system w) ∧
  files (upload_file file w).2
    = files w ++ [mkFile (next_file_id (files w)) (filename file) text] ∧
  background_tasks (upload_file file w).2
    = background_tasks w ++ [(next_file_id (files w), text)].
Proof.
  intros Hname Hdot Hextension Hsources Hopen Hparse.
  assert (last (split "." (filename file)) = Some extension) as Hlast.
  { rewrite Hname. by apply last_split_suffix. }
  unfold_upload. rewrite Hlast.
  destruct (decide (extension ∈ ["txt"; "pdf"])) as [_|Hnot].
  2:{ destruct Hnot. destruct Hextension as [-> | ->]; set_solver. }
  rewrite Hsources, Hopen. world_fields.
  rewrite lookup_insert_eq, Hparse. world_fields. done.
Qed.

(** At the fixture: [notes.txt] with a null byte in it. *)
Lemma upload_file_saves_witness :
  files (@upload_file Q (Fixture.stub "")
           (mkUploadFile "notes.txt" [Byte.x68; Byte.x00; Byte.x69])
           (Fixture.world [])).2
  = [] ++ [mkFile (1 + Z.of_nat (length (@nil File))) "notes.txt" "hi"].
Proof.
  refine (proj1 (proj2 (proj2 (proj2
            (@upload_file_saves Q (Fixture.stub "") (Fixture.world [])
               (mkUploadFile "notes.txt" [Byte.x68; Byte.x00; Byte.x69])
               "notes" "txt" "hi" _ _ _ _ _ _)))));
    [reflexivity|reflexivity|by left|reflexivity..].
Defined.

(** X2.  An upload that stops before the database is reached has added no
    row to the table of documents and queued no task: so when the last
    piece of the name is not allowed, when [sources] is a file, when the
    file does not open and when the parser raises.  In each case the upload
    raises. *)
Theorem upload_file_early_failure_adds_no_row {vector : Type}
    `{!Collaborators vector} (w : World vector) (file : UploadFile) :
  (last (split "." (filename file)) ≠ Some "txt" ∧
   last (split "." (filename file)) ≠ Some "pdf") ∨
  is_Some (file_system w !! "sources") ∨
  is_Some (open_wb (os_path_join "sources" (filename file))) ∨
  (∃ e : exn,
     parse (os_path_join "sources" (filename file))
       (remove_null_bytes (content file)) = Raise e) →
  (∃ e : exn, (upload_file file w).1 = Raise e) ∧
  files (upload_file file w).2 = files w ∧
  background_tasks (upload_file file w).2 = background_tasks w.
Proof.
  intros Hearly. upload_cases file w; eauto.
  destruct Hearly as [[Htxt Hpdf]|[[? Hfile]|[[? Hraises]|[? Hraises]]]];
    [|congruence..].
  apply elem_of_cons in Hallowed as [->|Hallowed]; [done|].
  apply elem_of_cons in Hallowed as [->|Hallowed]; [done|].
  by apply elem_of_nil in Hallowed.
Qed.

(** At the fixture whose parser raises, with a document in the table. *)
Lemma upload_file_early_failure_adds_no_row_witness :
  files (@upload_file Q Fixture.stub_down
           (mkUploadFile "notes.pdf" [Byte.x68])
           (mkWorld ∅ [] [mkFile 1 "a.txt" "a"] ∅ ∅ [(1, "a")] [])).2
  = [mkFile 1 "a.txt" "a"].
Proof.
  refine (proj1 (proj2 (@upload_file_early_failure_adds_no_row Q
                          Fixture.stub_down
                          (mkWorld ∅ [] [mkFile 1 "a.txt" "a"] ∅ ∅
                             [(1, "a")] [])
                          (mkUploadFile "notes.pdf" [Byte.x68]) _))).
  do 3 right. exists (Exception "unreadable"). reflexivity.
Defined.

(** X3.  When the parser raises on an accepted upload, the upload raises
    an [HTTPException] of status 500, "Error saving file", whatever the
    parser's exception says, and the file written before parsing stays on
    disk: nothing removes it. *)
Theorem upload_file_parse_failure_leaves_file {vector : Type}
    `{!Collaborators vector} (w : World vector) (file : UploadFile)
    (file_extension : string) (e : exn) :
  last (split "." (filename file)) = Some file_extension →
  file_extension ∈ ["txt"; "pdf"] →
  file_system w !! "sources" = None →
  open_wb (os_path_join "sources" (filename file)) = None →
  parse (os_path_join "sources" (filename file))
    (remove_null_bytes (content file)) = Raise e →
  (upload_file file w).1 = Raise (HTTPException 500 "Error saving file") ∧
  file_system (upload_file file w).2
    !! os_path_join "sources" (filename file)
    = Some (remove_null_bytes (content file)).
Proof.
  intros Hlast Hallowed Hsources Hopen Hparse.
  unfold_upload. rewrite Hlast.
  destruct (decide (file_extension ∈ ["txt"; "pdf"])); [|done].
  rewrite Hsources, Hopen. world_fields.
  rewrite lookup_insert_eq, Hparse. world_fields.
  by rewrite lookup_insert_eq.
Qed.

(** X4.  Whatever goes wrong, an upload raises one of two exceptions: status
    400, "File type not allowed", or status 500, "Error saving file"; the
    text of the exception that made it fail is never passed on. *)
Theorem upload_file_raises_400_or_500 {vector : Type}
    `{!Collaborators vector} (w : World vector) (file : UploadFile)
    (e : exn) :
  (upload_file file w).1 = Raise e →
  e = HTTPException 400 "File type not allowed" ∨
  e = HTTPException 500 "Error saving file".
Proof. upload_cases file w; intros [= <-]; auto. Qed.

(** At the fixture: [report.exe] is refused. *)
Lemma upload_file_raises_400_or_500_witness :
  HTTPException 400 "File type not allowed"
    = HTTPException 400 "File type not allowed" ∨
  HTTPException 400 "File type not allowed"
    = HTTPException 500 "Error saving file".
Proof.
  apply (@upload_file_raises_400_or_500 Q (Fixture.stub "") (Fixture.world [])
           (mkUploadFile "report.exe" [Byte.x68])).
  reflexivity.
Defined.

(** At the fixture whose parser raises. *)
Lemma upload_file_parse_failure_leaves_file_witness :
  file_system (@upload_file Q Fixture.stub_down
                 (mkUploadFile "notes.pdf" [Byte.x68; Byte.x00; Byte.x69])
                 (Fixture.world [])).2
    !! "sources/notes.pdf"
  = Some [Byte.x68; Byte.x69].
Proof.
  refine (proj2 (@upload_file_parse_failure_leaves_file Q Fixture.stub_down
                   (Fixture.world [])
                   (mkUploadFile "notes.pdf" [Byte.x68; Byte.x00; Byte.x69])
                   "pdf" (Exception "unreadable") _ _ _ _ _));
    [reflexivity|set_solver|reflexivity..].
Defined.

(** X5.  An upload is refused with status 400 exactly when the last piece
    of its name, split on the dot, is neither [txt] nor [pdf]; a name
    without a dot is its own last piece, so it is refused unless it is
    [txt] or [pdf] itself. *)
Theorem upload_file_refused_iff {vector : Type} `{!Collaborators vector}
    (w : World vector) (file : UploadFile) :
  ((upload_file file w).1
     = Raise (HTTPException 400 "File type not allowed") ↔
   last (split "." (filename file)) ≠ Some "txt" ∧
   last (split "." (filename file)) ≠ Some "pdf") ∧
  (has_char "." (filename file) = false →
   ((upload_file file w).1
      = Raise (HTTPException 400 "File type not allowed") ↔
    filename file ≠ "txt" ∧ filename file ≠ "pdf")).
Proof.
  assert ((upload_file file w).1
            = Raise (HTTPException 400 "File type not allowed") ↔
          last (split "." (filename file)) ≠ Some "txt" ∧
          last (split "." (filename file)) ≠ Some "pdf") as Hiff.
  { upload_cases file w.
    1-4: split; [done|intros [Htxt Hpdf]];
         apply elem_of_cons in Hallowed as [->|Hallowed]; [done|];
         apply elem_of_cons in Hallowed as [->|Hallowed]; [done|];
         by apply elem_of_nil in Hallowed.
    split; [|done]. intros _.
    split; intros [= ->]; apply Hallowed; set_solver. }
  split; [exact Hiff|].
  intros Hdot. rewrite Hiff, (split_one_piece _ _ Hdot). simpl.
  split; intros [Htxt Hpdf]; split; congruence.
Qed.

(** At the fixture: the name [README] has no dot. *)
Lemma upload_file_refused_iff_witness :
  (@upload_file Q (Fixture.stub "") (mkUploadFile "README" [])
     (Fixture.world [])).1
    = Raise (HTTPException 400 "File type not allowed") ↔
  "README" ≠ "txt" ∧ "README" ≠ "pdf".
Proof.
  apply (proj2 (@upload_file_refused_iff Q (Fixture.stub "")
                  (Fixture.world []) (mkUploadFile "README" []))).
  reflexivity.
Defined.

(** X6.  After an upload that returns, the file at [sources] joined with
    the name holds the uploaded bytes with every null byte taken out and
    nothing else changed: what is stored has no null byte, it is the
    content with some bytes left out, in the same order, and the bytes left
    out are as many as the null bytes of the content. *)
Theorem upload_file_stores_without_null_bytes {vector : Type}
    `{!Collaborators vector} (w : World vector) (file : UploadFile)
    (response : gmap string string) :
  (upload_file file w).1 = Return response →
  ∃ stored : list Byte.byte,
    file_system (upload_file file w).2
      !! os_path_join "sources" (filename file) = Some stored ∧
    (Byte.x00 ∉ stored) ∧
    (stored `sublist_of` content file) ∧
    (length stored + count_occ Byte.byte_eq_dec (content file) Byte.x00
     = length (content file))%nat.
Proof.
  intros Hreturn. exists (remove_null_bytes (content file)).
  split; [|split; [|split]].
  - revert Hreturn. upload_cases file w; try done.
    intros _. by rewrite lookup_insert_eq.
  - apply remove_null_bytes_no_null.
  - apply remove_null_bytes_sublist.
  - unfold remove_null_bytes.
    induction (content file) as [|b data IH]; simpl; [done|].
    destruct (Byte.byte_eq_dec b Byte.x00) as [->|Hb]; simpl; [lia|].
    destruct (Byte.eqb b Byte.x00) eqn:Heq; simpl; [|lia].
    apply Byte.byte_dec_bl in Heq. congruence.
Qed.

(** At the fixture: [notes.txt] with a null byte in it. *)
Lemma upload_file_stores_without_null_bytes_witness :
  ∃ stored : list Byte.byte,
    file_system (@upload_file Q (Fixture.stub "")
                   (mkUploadFile "notes.txt" [Byte.x68; Byte.x00; Byte.x69])
                   (Fixture.world [])).2
      !! "sources/notes.txt" = Some stored ∧
    (length stored + 1 = 3)%nat.
Proof.
  destruct (@upload_file_stores_without_null_bytes Q (Fixture.stub "")
              (Fixture.world [])
              (mkUploadFile "notes.txt" [Byte.x68; Byte.x00; Byte.x69])
              (<["info" := "File saved"]> {["filename" := "notes.txt"]}))
    as (stored & Hstored & _ & _ & Hlength); [reflexivity|].
  exists stored. split; [exact Hstored|exact Hlength].
Defined.

(** X7.  Where an upload that returns has written its file: under
    [sources/] for a name that does not begin with a slash, and at the name
    itself, outside [sources], for a name that begins with a slash. *)
Theorem upload_file_location {vector : Type} `{!Collaborators vector}
    (w : World vector) (file : UploadFile)
    (response : gmap string string) :
  (upload_file file w).1 = Return response →
  ((∀ rest : string, filename file ≠ String "/" rest) →
   file_system (upload_file file w).2 !! ("sources/" +:+ filename file)
     = Some (remove_null_bytes (content file))) ∧
  (∀ rest : string,
     filename file = String "/" rest →
     file_system (upload_file file w).2 !! filename file
       = Some (remove_null_bytes (content file))).
Proof.
  intros Hreturn.
  assert (file_system (upload_file file w).2
            !! os_path_join "sources" (filename file)
          = Some (remove_null_bytes (content file))) as Hstored.
  { revert Hreturn. upload_cases file w; try done.
    intros _. by rewrite lookup_insert_eq. }
  split.
  - intros Hrelative.
    replace ("sources/" +:+ filename file)
      with (os_path_join "sources" (filename file)); [done|].
    unfold os_path_join. destruct (filename file) as [|c rest]; [done|].
    destruct (decide (c = "/"%char)) as [->|Hc]; [by destruct (Hrelative rest)|].
    destruct c as [[] [] [] [] [] [] [] []]; done.
  - intros rest Hname. by rewrite Hname in Hstored |- *.
Qed.

(** At the fixture: the name [/tmp/notes.txt]. *)
Lemma upload_file_location_witness :
  file_system (@upload_file Q (Fixture.stub "")
                 (mkUploadFile "/tmp/notes.txt" [Byte.x68])
                 (Fixture.world [])).2
    !! "/tmp/notes.txt"
  = Some [Byte.x68].
Proof.
  refine (proj2 (@upload_file_location Q (Fixture.stub "") (Fixture.world [])
                   (mkUploadFile "/tmp/notes.txt" [Byte.x68])
                   (<["info" := "File saved"]>
                      {["filename" := "/tmp/notes.txt"]}) _)
            "tmp/notes.txt" _); reflexivity.
Defined.

(** One step of the case analysis on what the collaborators answer. *)
Ltac case_outcome :=
  match goal with
  | |- context [match ?r with Return _ => _ | Raise _ => _ end] =>
      lazymatch r with
      | embeddings_create _ _ _ => destruct r eqn:?
      | chat_completions_create _ _ _ => destruct r eqn:?
      | similar_chunks_query _ _ _ _ => destruct r eqn:?
      end; simpl
  end.

Section Retrieval_state.
Context {vector : Type} `{!Collaborators vector}.

(** What a question is answered depends on the world through the
    environment, the table of fragments and the trace only. *)
Lemma ask_question_decided_by_retrieval_state (w w' : World vector)
    (request : AskModel) :
  environ w' = environ w → file_chunks w' = file_chunks w →
  calls w' = calls w →
  (Main.ask_question request w').1 = (Main.ask_question request w).1 ∧
  (MainEnsemble.ask_question request w').1
    = (MainEnsemble.ask_question request w).1.
Proof.
  intros Henv Hrows Hcalls. unfold_handlers. rewrite Henv.
  split.
  all: destruct (environ w !! "NEBIUS_API_KEY") as [api_key|]; simpl;
    [|done].
  all: repeat (rewrite ?Hcalls, ?Hrows; case_outcome).
  all: reflexivity.
Qed.
End Retrieval_state.

(** X8.  An upload changes the answer to no question: asked in the world an
    upload has left, whether it was saved, refused or failed, a question
    has the outcome it would have had without the upload, in [main.py] and
    in [main_ensemble.py] (the fragments of the new document come later,
    from the background task). *)
Theorem upload_file_changes_no_answer {vector : Type}
    `{!Collaborators vector} (w : World vector) (file : UploadFile)
    (request : AskModel) :
  (Main.ask_question request (Main.upload_file file w).2).1
    = (Main.ask_question request w).1 ∧
  (MainEnsemble.ask_question request (MainEnsemble.upload_file file w).2).1
    = (MainEnsemble.ask_question request w).1.
Proof.
  destruct (upload_file_keeps_retrieval_state w file)
    as (Henv & Hrows & Hcalls).
  by apply ask_question_decided_by_retrieval_state.
Qed.

(** X9.  The listing of documents after an upload, in [main.py] and in
    [main_ensemble.py]: when the upload returned, [root] lists what it
    listed before followed by one entry with the key given to the new row
    and the name of the file; when the upload was refused for its name,
    [root] lists what it listed before. *)
Theorem root_after_upload_file {vector : Type} `{!Collaborators vector}
    (w : World vector) (file : UploadFile) :
  ∃ before : list (gmap string json_value),
    (Main.root w).1 = Return before ∧
    (MainEnsemble.root w).1 = Return before ∧
    (∀ response : gmap string string,
       (Main.upload_file file w).1 = Return response →
       (Main.root (Main.upload_file file w).2).1
         = Return (before ++
                   [<["file_id" := JInt (next_file_id (files w))]>
                      {["file_name" := JStr (filename file)]}])) ∧
    (∀ response : gmap string string,
       (MainEnsemble.upload_file file w).1 = Return response →
       (MainEnsemble.root (MainEnsemble.upload_file file w).2).1
         = Return (before ++
                   [<["file_id" := JInt (next_file_id (files w))]>
                      {["file_name" := JStr (filename file)]}])) ∧
    ((Main.upload_file file w).1
       = Raise (HTTPException 400 "File type not allowed") →
     (Main.root (Main.upload_file file w).2).1 = Return before) ∧
    ((MainEnsemble.upload_file file w).1
       = Raise (HTTPException 400 "File type not allowed") →
     (MainEnsemble.root (MainEnsemble.upload_file file w).2).1
       = Return before).
Proof.
  eexists. split; [reflexivity|]. split; [reflexivity|].
  unfold Main.root, MainEnsemble.root, root.
  split; [intros response|split; [intros response|split]].
  all: upload_cases file w; try done.
  all: intros _; by rewrite map_app.
Qed.

(** At the fixture: [notes.txt] is the first document. *)
Lemma root_after_upload_file_witness :
  (@Main.root Q
     (@Main.upload_file Q (Fixture.stub "")
        (mkUploadFile "notes.txt" [Byte.x68; Byte.x69])
        (Fixture.world [])).2).1
  = Return [<["file_id" := JInt 1]> {["file_name" := JStr "notes.txt"]}].
Proof.
  destruct (@root_after_upload_file Q (Fixture.stub "") (Fixture.world [])
              (mkUploadFile "notes.txt" [Byte.x68; Byte.x69]))
    as (before & Hbefore & _ & Hsaved & _).
  injection Hbefore as <-.
  apply (Hsaved (<["info" := "File saved"]> {["filename" := "notes.txt"]})).
  reflexivity.
Defined.

(** ** [get_similar_chunks]: failure and isolation *)

Section Query.
Context {vector : Type} `{!Collaborators vector}.

(** The rows a query returns are rows of the document, no more of each
    than the table holds, and no more than the limit. *)
Lemma similar_chunks_query_own (of_file : Z) (v : vector) (limit : Z)
    (rows chunks : list (FileChunk vector)) :
  similar_chunks_query of_file v limit rows = Return chunks →
  chunks ⊆+ chunks_of of_file rows ∧
  Forall (λ chunk, file_id chunk = of_file ∧ chunk ∈ rows) chunks ∧
  Z.of_nat (length chunks) ≤ limit.
Proof.
  unfold similar_chunks_query.
  destruct (limit <? 0) eqn:Hneg; [done|].
  destruct (2 ^ 63 <=? limit); [done|]. intros [= <-].
  assert (take (Z.to_nat limit)
            (order_by (distance_to v) (tie_order rows of_file v limit)
               (chunks_of of_file rows))
          ⊆+ chunks_of of_file rows) as Hsub.
  { etrans; [apply sublist_submseteq, sublist_take|].
    by rewrite order_by_Permutation. }
  split; [done|split].
  - apply Forall_forall. intros chunk Hin.
    pose proof (elem_of_submseteq _ _ _ Hin Hsub) as Hin'.
    unfold chunks_of in Hin'. apply list_elem_of_filter in Hin'. tauto.
  - rewrite length_take. lia.
Qed.
End Query.

(** X10.  When the embedding API raises, [get_similar_chunks] raises an
    [HTTPException] of status 500 with the text of that exception, and the
    table is not queried: the embedding call is the only call made.  So in
    [main.py] and in [main_ensemble.py]. *)
Theorem get_similar_chunks_embedding_failure {vector : Type}
    `{!Collaborators vector} (w : World vector) (file_id : Z)
    (question : string) (limit : Z) (e : exn) :
  embeddings_create (calls w) "BAAI/bge-en-icl" question = Raise e →
  ((MainEnsemble.get_similar_chunks file_id question limit w).1
     = Raise (HTTPException 500 (str e)) ∧
   calls_made (MainEnsemble.get_similar_chunks file_id question limit) w
     = [EmbeddingsCreate "BAAI/bge-en-icl" question (Raise e)]) ∧
  ((Main.get_similar_chunks file_id question w).1
     = Raise (HTTPException 500 (str e)) ∧
   calls_made (Main.get_similar_chunks file_id question) w
     = [EmbeddingsCreate "BAAI/bge-en-icl" question (Raise e)]).
Proof.
  intros Hembed. unfold_handlers. rewrite Hembed. simpl.
  made_calls. done.
Qed.

(** At the fixture whose embedding API raises. *)
Lemma get_similar_chunks_embedding_failure_witness :
  (@Main.get_similar_chunks Q Fixture.stub_down 1 "what are cats?"
     (Fixture.world [Fixture.F1])).1
  = Raise (HTTPException 500 "embedding unavailable").
Proof.
  refine (proj1 (proj2 (@get_similar_chunks_embedding_failure Q
                          Fixture.stub_down (Fixture.world [Fixture.F1])
                          1 "what are cats?" 10
                          (Exception "embedding unavailable") _))).
  reflexivity.
Defined.

(** X11.  What [get_similar_chunks] returns is taken from the rows of the
    requested document: every returned fragment is a stored fragment with
    that document's key, no fragment is returned more often than it is
    stored, and there are at most [limit] of them (at most 10 in
    [main.py]). *)
Theorem get_similar_chunks_isolation {vector : Type}
    `{!Collaborators vector} (w : World vector) (of_file : Z)
    (question : string) (limit : Z) (result : list (FileChunk vector)) :
  ((MainEnsemble.get_similar_chunks of_file question limit w).1
     = Return result →
   result ⊆+ chunks_of of_file (file_chunks w) ∧
   Forall (λ chunk, file_id chunk = of_file ∧ chunk ∈ file_chunks w)
     result ∧
   Z.of_nat (length result) ≤ limit) ∧
  ((Main.get_similar_chunks of_file question w).1 = Return result →
   result ⊆+ chunks_of of_file (file_chunks w) ∧
   Forall (λ chunk, file_id chunk = of_file ∧ chunk ∈ file_chunks w)
     result ∧
   Z.of_nat (length result) ≤ 10).
Proof.
  assert (∀ k : Z,
            (MainEnsemble.get_similar_chunks of_file question k w).1
              = Return result →
            result ⊆+ chunks_of of_file (file_chunks w) ∧
            Forall (λ chunk, file_id chunk = of_file ∧ chunk ∈ file_chunks w)
              result ∧
            Z.of_nat (length result) ≤ k) as Hany.
  { intros k. unfold_handlers. case_outcomes; try done.
    intros [= <-]. by eapply similar_chunks_query_own. }
  split; [apply Hany|].
  rewrite get_similar_chunks_limit_10. apply Hany.
Qed.

(** At the fixture: a fragment of another document is in the table. *)
Lemma get_similar_chunks_isolation_witness :
  [Fixture.F1]
    ⊆+ chunks_of 1 [mkFileChunk 9 2 "other" (0 # 1)%Q; Fixture.F1].
Proof.
  refine (proj1 (proj2 (@get_similar_chunks_isolation Q (Fixture.stub "")
                   (Fixture.world
                      [mkFileChunk 9 2 "other" (0 # 1)%Q; Fixture.F1])
                   1 "what are cats?" 10 [Fixture.F1]) _)).
  reflexivity.
Defined.

(** X17.  [find_similar_chunks], when the question embeds, answers with
    one entry per fragment that [get_similar_chunks] returns, in that order,
    each made of the fragment's key and text; it asks no model.  In
    [main_ensemble.py] these are the 5 nearest fragments of the document, or
    all of them when there are fewer; in [main.py] the 10 nearest. *)
Theorem find_similar_chunks_response {vector : Type}
    `{!Collaborators vector} (w : World vector) (file_id : Z)
    (question : Question) (v : vector) :
  embeddings_create (calls w) "BAAI/bge-en-icl" (question_text question)
    = Return v →
  let entry := λ chunk : FileChunk vector,
                 <["chunk_id" := JInt (chunk_id chunk)]>
                   ({["chunk_text" := JStr (chunk_text chunk)]}
                      : gmap string json_value) in
  let stored := length (chunks_of file_id (file_chunks w)) in
  (∃ chunks : list (FileChunk vector),
     (MainEnsemble.get_similar_chunks file_id (question_text question) 5
        w).1 = Return chunks ∧
     (MainEnsemble.find_similar_chunks file_id question w).1
       = Return (map entry chunks) ∧
     length chunks = min 5 stored ∧
     models_called
       (calls_made (MainEnsemble.find_similar_chunks file_id question) w)
       = []) ∧
  (∃ chunks : list (FileChunk vector),
     (Main.get_similar_chunks file_id (question_text question) w).1
       = Return chunks ∧
     (Main.find_similar_chunks file_id question w).1
       = Return (map entry chunks) ∧
     length chunks = min 10 stored ∧
     models_called (calls_made (Main.find_similar_chunks file_id question) w)
       = []).
Proof.
  intros Hembed entry stored.
  pose proof (similar_chunks_query_returns file_id v 5 (file_chunks w))
    as Hquery5.
  pose proof (similar_chunks_query_returns file_id v 10 (file_chunks w))
    as Hquery10.
  split.
  all: eexists.
  all: unfold Main.find_similar_chunks, MainEnsemble.find_similar_chunks.
  all: unfold_handlers; rewrite Hembed; simpl.
  all: rewrite ?Hquery5, ?Hquery10 by lia; simpl.
  all: split; [reflexivity|split; [reflexivity|]].
  all: made_calls.
  all: split; [|reflexivity].
  all: by rewrite length_take, order_by_Permutation.
Qed.

(** At the fixture: three fragments, so three entries. *)
Lemma find_similar_chunks_response_witness :
  ∃ chunks : list (FileChunk Q),
    (@MainEnsemble.get_similar_chunks Q (Fixture.stub "") 1 "what are cats?"
       5 (Fixture.world [Fixture.F3; Fixture.F1; Fixture.F2])).1
      = Return chunks ∧
    length chunks = 3%nat.
Proof.
  destruct (@find_similar_chunks_response Q (Fixture.stub "")
              (Fixture.world [Fixture.F3; Fixture.F1; Fixture.F2])
              1 (mkQuestion "what are cats?") 0%Q)
    as [(chunks & Hchunks & _ & Hlength & _) _]; [reflexivity|].
  exists chunks. split; [exact Hchunks|exact Hlength].
Defined.

(** ** [ask_question]: failures and what is returned *)

(** X13.  Whichever model raises, in [main.py] or in [main_ensemble.py],
    that call is the last call of the request, and [ask_question] raises an
    [HTTPException] of status 500 with the text of that exception: no model
    is asked after one has failed. *)
Theorem ask_question_model_failure_is_last {vector : Type}
    `{!Collaborators vector} (w : World vector) (request : AskModel)
    (model : string) (messages : list Message) (e : exn) :
  (ChatCompletionsCreate model messages (Raise e)
     ∈ calls_made (Main.ask_question request) w →
   (Main.ask_question request w).1 = Raise (HTTPException 500 (str e)) ∧
   last (calls_made (Main.ask_question request) w)
     = Some (ChatCompletionsCreate model messages (Raise e))) ∧
  (ChatCompletionsCreate model messages (Raise e)
     ∈ calls_made (MainEnsemble.ask_question request) w →
   (MainEnsemble.ask_question request w).1
     = Raise (HTTPException 500 (str e)) ∧
   last (calls_made (MainEnsemble.ask_question request) w)
     = Some (ChatCompletionsCreate model messages (Raise e))).
Proof.
  unfold_handlers. split.
  all: destruct (environ w !! "NEBIUS_API_KEY") as [api_key|]; simpl;
    case_outcomes; made_calls; intros Hin; one_of_the_calls Hin.
  all: injection Hin as -> -> ->; done.
Qed.

(** At the fixture whose primary model raises. *)
Lemma ask_question_model_failure_is_last_witness :
  (@MainEnsemble.ask_question Q
     (Fixture.stub "Qwen/Qwen2.5-Coder-32B-Instruct")
     (mkAskModel 1 "what are cats?") (Fixture.world [Fixture.F1])).1
  = Raise (HTTPException 500 "model unavailable").
Proof.
  refine (proj1 (proj2 (@ask_question_model_failure_is_last Q
                   (Fixture.stub "Qwen/Qwen2.5-Coder-32B-Instruct")
                   (Fixture.world [Fixture.F1])
                   (mkAskModel 1 "what are cats?")
                   "Qwen/Qwen2.5-Coder-32B-Instruct"
                   [mkMessage "system"
                      (draft_system_message "cats are mammals");
                    mkMessage "user" "what are cats?"]
                   (Exception "model unavailable")) _)).
  apply list_elem_of_In. vm_compute. do 4 right. left. reflexivity.
Defined.

(** X14.  Whenever an embedding call of a request raises, the first or, in
    [main_ensemble.py], the second, that call is the last call of the
    request and no model is asked.  [ask_question] raises an
    [HTTPException] of status 500 whose detail is the text of the
    [HTTPException] that [get_similar_chunks] raised, itself made from the
    text of the embedding exception: the failure is wrapped twice. *)
Theorem ask_question_retrieval_failure {vector : Type}
    `{!Collaborators vector} (w : World vector) (request : AskModel)
    (model input : string) (e : exn) :
  (EmbeddingsCreate model input (Raise e)
     ∈ calls_made (Main.ask_question request) w →
   (Main.ask_question request w).1
     = Raise (HTTPException 500 (str (HTTPException 500 (str e)))) ∧
   last (calls_made (Main.ask_question request) w)
     = Some (EmbeddingsCreate model input (Raise e)) ∧
   models_called (calls_made (Main.ask_question request) w) = []) ∧
  (EmbeddingsCreate model input (Raise e)
     ∈ calls_made (MainEnsemble.ask_question request) w →
   (MainEnsemble.ask_question request w).1
     = Raise (HTTPException 500 (str (HTTPException 500 (str e)))) ∧
   last (calls_made (MainEnsemble.ask_question request) w)
     = Some (EmbeddingsCreate model input (Raise e)) ∧
   models_called (calls_made (MainEnsemble.ask_question request) w) = []).
Proof.
  unfold_handlers. split.
  all: destruct (environ w !! "NEBIUS_API_KEY") as [api_key|]; simpl;
    case_outcomes; made_calls; intros Hin; one_of_the_calls Hin.
  all: injection Hin as -> -> ->; done.
Qed.

(** At the fixture whose embedding API raises. *)
Lemma ask_question_retrieval_failure_witness :
  (@MainEnsemble.ask_question Q Fixture.stub_down
     (mkAskModel 1 "what are cats?") (Fixture.world [Fixture.F1])).1
  = Raise (HTTPException 500 "500: embedding unavailable").
Proof.
  refine (proj1 (proj2 (@ask_question_retrieval_failure Q Fixture.stub_down
                   (Fixture.world [Fixture.F1])
                   (mkAskModel 1 "what are cats?")
                   "BAAI/bge-en-icl" "what are cats?"
                   (Exception "embedding unavailable")) _)).
  apply list_elem_of_In. vm_compute. left. reflexivity.
Defined.

(** X15.  Every exception that leaves [get_similar_chunks],
    [find_similar_chunks] or [ask_question], in [main.py] and in
    [main_ensemble.py], is an [HTTPException] of status 500. *)
Theorem handlers_raise_status_500 {vector : Type} `{!Collaborators vector}
    (w : World vector) (e : exn) :
  (∀ request : AskModel,
     (Main.ask_question request w).1 = Raise e →
     ∃ detail, e = HTTPException 500 detail) ∧
  (∀ request : AskModel,
     (MainEnsemble.ask_question request w).1 = Raise e →
     ∃ detail, e = HTTPException 500 detail) ∧
  (∀ (file_id : Z) (question : string) (limit : Z),
     (MainEnsemble.get_similar_chunks file_id question limit w).1 = Raise e →
     ∃ detail, e = HTTPException 500 detail) ∧
  (∀ (file_id : Z) (question : string),
     (Main.get_similar_chunks file_id question w).1 = Raise e →
     ∃ detail, e = HTTPException 500 detail) ∧
  (∀ (file_id : Z) (question : Question),
     (Main.find_similar_chunks file_id question w).1 = Raise e →
     ∃ detail, e = HTTPException 500 detail) ∧
  (∀ (file_id : Z) (question : Question),
     (MainEnsemble.find_similar_chunks file_id question w).1 = Raise e →
     ∃ detail, e = HTTPException 500 detail).
Proof.
  unfold Main.find_similar_chunks, MainEnsemble.find_similar_chunks.
  unfold_handlers.
  split; [|split; [|split; [|split; [|split]]]]; intros *.
  all: try destruct (environ w !! "NEBIUS_API_KEY") as [api_key|]; simpl.
  all: case_outcomes; simpl; intros [= <-]; eauto.
Qed.

(** At the fixture whose embedding API raises. *)
Lemma handlers_raise_status_500_witness :
  ∃ detail : string,
    HTTPException 500 "embedding unavailable" = HTTPException 500 detail.
Proof.
  apply (proj1 (proj2 (proj2 (proj2
           (@handlers_raise_status_500 Q Fixture.stub_down
              (Fixture.world [Fixture.F1])
              (HTTPException 500 "embedding unavailable")))))
           1 "what are cats?").
  reflexivity.
Defined.

(** X16.  An ensemble request that returns has asked exactly three models,
    the primary, the secondary and the fusion model in that order, and
    returns, under the key [response], the text the fusion model gave and
    nothing of the two drafts. *)
Theorem ensemble_returns_fusion_answer {vector : Type}
    `{!Collaborators vector} (w : World vector) (request : AskModel)
    (response : gmap string string) :
  (MainEnsemble.ask_question request w).1 = Return response →
  models_called (calls_made (MainEnsemble.ask_question request) w)
    = ["Qwen/Qwen2.5-Coder-32B-Instruct";
       "meta-llama/Meta-Llama-3.1-405B-Instruct";
       "nvidia/Llama-3.1-Nemotron-70B-Instruct-HF"] ∧
  ∃ (messages : list Message) (text : string),
    last (calls_made (MainEnsemble.ask_question request) w)
      = Some (ChatCompletionsCreate
                "nvidia/Llama-3.1-Nemotron-70B-Instruct-HF" messages
                (Return text)) ∧
    response = {["response" := text]}.
Proof.
  unfold_handlers.
  destruct (environ w !! "NEBIUS_API_KEY") as [api_key|]; simpl;
    case_outcomes; made_calls; intros [= <-].
  split; [reflexivity|]. eexists _, _. split; reflexivity.
Qed.

(** At the fixture, with models that all answer. *)
Lemma ensemble_returns_fusion_answer_witness :
  models_called
    (calls_made
       (@MainEnsemble.ask_question Q (Fixture.stub "")
          (mkAskModel 1 "what are cats?"))
       (Fixture.world [Fixture.F1]))
  = ["Qwen/Qwen2.5-Coder-32B-Instruct";
     "meta-llama/Meta-Llama-3.1-405B-Instruct";
     "nvidia/Llama-3.1-Nemotron-70B-Instruct-HF"].
Proof.
  refine (proj1 (@ensemble_returns_fusion_answer Q (Fixture.stub "")
                   (Fixture.world [Fixture.F1])
                   (mkAskModel 1 "what are cats?")
                   {["response" :=
                       "answer of nvidia/Llama-3.1-Nemotron-70B-Instruct-HF"]}
                   _)).
  reflexivity.
Defined.


(** Without the hypothesis on the distances the two selections need not
    agree: with eleven fragments at the same distance and an executor whose
    order among ties changes with the limit, the selection at limit 5 is
    not the beginning of the selection at limit 10. *)
Example selections_differ_on_ties :
  let C := Fixture.stub_limit_5_ties in
  let w := Fixture.world Fixture.equidistant in
  let fragment := λ i : nat, mkFileChunk (Z.of_nat i) 1 "text" 0%Q in
  (MainEnsemble.get_similar_chunks 1 "what are cats?" 5 w).1
    = Return (fragment <$> [2; 3; 4; 5; 1]%nat) ∧
  (MainEnsemble.get_similar_chunks 1 "what are cats?" 10 w).1
    = Return (fragment <$> [1; 2; 3; 4; 5; 6; 7; 8; 9; 10]%nat).
Proof. split; reflexivity. Qed.


(** X18.  Every call a request makes is about that request: each embedding
    call is for the model [BAAI/bge-en-icl] and the question as received,
    each query is for the document of the request and returns fragments of
    that document only, and each completion call has two messages, a
    system message and then a user message that is the question as
    received.  So in [main.py] and in [main_ensemble.py]. *)
Theorem ask_question_calls_are_about_the_request {vector : Type}
    `{!Collaborators vector} (w : World vector) (request : AskModel)
    (call : Call vector) :
  call ∈ calls_made (Main.ask_question request) w ∨
  call ∈ calls_made (MainEnsemble.ask_question request) w →
  match call with
  | EmbeddingsCreate model input _ =>
      model = "BAAI/bge-en-icl" ∧ input = question request
  | Select of_file _ _ result =>
      of_file = document_id request ∧
      ∃ chunks, result = Return chunks ∧
                Forall (λ chunk, file_id chunk = document_id request) chunks
  | ChatCompletionsCreate _ messages _ =>
      ∃ system_message,
        messages = [mkMessage "system" system_message;
                    mkMessage "user" (question request)]
  end.
Proof.
  assert (∀ (v : vector) (limit : Z) (chunks : list (FileChunk vector)),
            similar_chunks_query (document_id request) v limit
              (file_chunks w) = Return chunks →
            Forall (λ chunk, file_id chunk = document_id request) chunks)
    as Hown.
  { intros v limit chunks Hquery.
    apply similar_chunks_query_own in Hquery as (_ & Hrows & _).
    eapply Forall_impl; [exact Hrows|]. by intros chunk [Hfile _]. }
  pose proof (similar_chunks_query_returns (document_id request)) as Hquery.
  unfold_handlers.
  destruct (environ w !! "NEBIUS_API_KEY") as [api_key|]; simpl.
  2:{ made_calls. intros [Hin|Hin]; by apply elem_of_nil in Hin. }
  intros [Hin|Hin]; revert Hin.
  all: case_outcomes; made_calls; intros Hin.
  all: repeat (apply elem_of_cons in Hin as [->|Hin]);
    try (by apply elem_of_nil in Hin).
  all: try done.
  all: try (by eexists).
  all: split; [done|]; eexists.
  all: split; [apply Hquery; lia|].
  all: eapply Hown; apply Hquery; lia.
Qed.

(** At the fixture: the query of a request for document 1. *)
Lemma ask_question_calls_are_about_the_request_witness :
  (1 : Z) = 1 ∧
  ∃ chunks : list (FileChunk Q),
    Return [Fixture.F1] = Return chunks ∧
    Forall (λ chunk, file_id chunk = 1) chunks.
Proof.
  refine (@ask_question_calls_are_about_the_request Q (Fixture.stub "")
            (Fixture.world [Fixture.F1]) (mkAskModel 1 "what are cats?")
            (Select 1 0%Q 10 (Return [Fixture.F1])) _).
  left. apply list_elem_of_In. vm_compute. do 1 right. left. reflexivity.
Defined.
